(** * Verification of the network device configuration tool

    Shallow embedding of [src/task-4/configuration_tool.py] (the completed
    tool) and of [src/configuration_tool.py] (the skeleton it grew from), and
    the properties that the specification states about them.

    - A Python string is a list of code points; [strip], [splitlines] and
      [split] follow CPython.
    - A function that reads a dictionary, calls Netmiko or prints runs in a
      state monad with exceptions.  For the functions that talk to a device
      the state is the trace of all calls and printed lines so far.
    - Netmiko, click and [inventory_tool] lie outside the sources: what they
      answer is a parameter of every function and of every theorem. *)

From Stdlib Require Import String Ascii NArith List Bool Lia DecimalString.
From stdpp Require Import base option list gmap.

Open Scope N_scope.
Open Scope list_scope.

(** ** Python strings *)

(** A Python [str] is a sequence of Unicode code points.  (Every list of
    numbers is admitted here, so statements over all [str] cover every Python
    string.) *)
Abbreviation str := (list N).

(** The source text of a string literal of the program.  All literals of the
    program are ASCII, so a character is its own code point. *)
Definition py (s : string) : str :=
  map N_of_ascii (list_ascii_of_string s).

Module Python.

(** [str.isspace] on one character, as used by [str.strip()] without
    arguments (CPython's [Py_UNICODE_ISSPACE]). *)
Definition isspace (c : N) : bool :=
  ((9 <=? c) && (c <=? 13))                (* \t \n \v \f \r *)
  || ((28 <=? c) && (c <=? 32))            (* FS GS RS US and the space *)
  || (c =? 133) || (c =? 160)              (* U+0085, U+00A0 *)
  || (c =? 5760)                           (* U+1680 *)
  || ((8192 <=? c) && (c <=? 8202))        (* U+2000 .. U+200A *)
  || (c =? 8232) || (c =? 8233)            (* U+2028, U+2029 *)
  || (c =? 8239) || (c =? 8287)            (* U+202F, U+205F *)
  || (c =? 12288).                         (* U+3000 *)

(** The line boundaries of [str.splitlines] (CPython's
    [Py_UNICODE_ISLINEBREAK]). *)
Definition islinebreak (c : N) : bool :=
  ((10 <=? c) && (c <=? 13))               (* \n \v \f \r *)
  || ((28 <=? c) && (c <=? 30))            (* FS GS RS *)
  || (c =? 133)                            (* U+0085 *)
  || (c =? 8232) || (c =? 8233).           (* U+2028, U+2029 *)

Fixpoint lstrip (s : str) : str :=
  match s with
  | c :: s' => if isspace c then lstrip s' else s
  | [] => []
  end.

Definition rstrip (s : str) : str := rev (lstrip (rev s)).

(** [s.strip()] *)
Definition strip (s : str) : str := rstrip (lstrip s).

(** [s.splitlines()]: [line] holds the characters of the current line in
    reverse.  A carriage return directly followed by a line feed is one
    boundary; no empty line is produced after a final boundary. *)
Fixpoint splitlines_from (line : str) (s : str) : list str :=
  match s with
  | [] => match line with [] => [] | _ => [rev line] end
  | c :: s' =>
      if islinebreak c then
        rev line ::
          match s' with
          | c' :: s'' =>
              if (c =? 13) && (c' =? 10) then splitlines_from [] s''
              else splitlines_from [] s'
          | [] => splitlines_from [] s'
          end
      else splitlines_from (c :: line) s'
  end.

Definition splitlines (s : str) : list str := splitlines_from [] s.

(** Truth value of a string in a condition: the empty string is false. *)
Definition truthy (s : str) : bool :=
  match s with [] => false | _ => true end.

(** A dictionary whose keys and values are strings. *)
Abbreviation dict := (gmap (list N) (list N)).

(** The value of an optional string when it is true in a condition: [None]
    and the empty string are false. *)
Definition true_str (x : option str) : option str :=
  match x with
  | Some (c :: s) => Some (c :: s)
  | _ => None
  end.

(** [s.split(sep)] for a separator of one character; [cur] holds the current
    field in reverse. *)
Fixpoint split_from (sep : N) (cur : str) (s : str) : list str :=
  match s with
  | [] => [rev cur]
  | c :: s' =>
      if c =? sep then rev cur :: split_from sep [] s'
      else split_from sep (c :: cur) s'
  end.

Definition split (s : str) (sep : N) : list str := split_from sep [] s.

(** A dictionary display [{k1: v1, k2: v2, ...}] with distinct keys. *)
Definition dict_of (items : list (str * str)) : dict := list_to_map items.

(** What a raised exception looks like to the program: [KeyError(key)] is
    raised by a subscript [d[key]] on a dictionary without that key;
    [Raised is_exc text] is an exception raised inside a library, of which
    the program observes whether it is an instance of [Exception] (a
    [KeyboardInterrupt] or [SystemExit] is not) and its [str()]. *)
Inductive exception : Type :=
| KeyError (key : str)
| Raised (is_exc : bool) (text : str).

(** [isinstance(e, Exception)] *)
Definition isinstance_Exception (e : exception) : bool :=
  match e with
  | KeyError _ => true
  | Raised is_exc _ => is_exc
  end.

(** [str(e)].  The text of a [KeyError] is the [repr] of its key, written
    here for keys of printable ASCII characters without quote or
    backslash, which the keys of this program are. *)
Definition str_of_exception (e : exception) : str :=
  match e with
  | KeyError key => py "'" ++ key ++ py "'"
  | Raised _ text => text
  end.

(** How a call ends. *)
Inductive outcome (A : Type) : Type :=
| Return (a : A)
| Raise (e : exception).
Arguments Return {A} a.
Arguments Raise {A} e.

(** Computations over a mutable state [S] that may raise. *)
Definition M (S A : Type) : Type := S -> outcome A * S.

Definition ret {S A : Type} (a : A) : M S A := fun s => (Return a, s).

Definition bind {S A B : Type} (m : M S A) (k : A -> M S B) : M S B :=
  fun s =>
    match m s with
    | (Return a, s') => k a s'
    | (Raise e, s') => (Raise e, s')
    end.

(** [try: body  except Exception as e: handler(e)] *)
Definition try_except {S A : Type}
    (body : M S A) (handler : exception -> M S A) : M S A :=
  fun s =>
    match body s with
    | (Return a, s') => (Return a, s')
    | (Raise e, s') =>
        if isinstance_Exception e then handler e s' else (Raise e, s')
    end.

(** [try: body  finally: cleanup]: the cleanup runs however the body ends;
    if the cleanup raises, that exception replaces the body's outcome. *)
Definition try_finally {S A B : Type}
    (body : M S A) (cleanup : M S B) : M S A :=
  fun s =>
    match body s with
    | (r, s') =>
        match cleanup s' with
        | (Return _, s'') => (r, s'')
        | (Raise e, s'') => (Raise e, s'')
        end
    end.

(** The value of an optional dictionary when it is true in a condition:
    [None] and the empty dictionary are false. *)
Definition true_dict (x : option dict) : option dict :=
  match x with
  | Some d => if decide (d = ∅) then None else Some d
  | None => None
  end.

(** [s.split()] without arguments: the fields between runs of whitespace;
    [cur] holds the current field in reverse. *)
Fixpoint split_whitespace_from (cur : str) (s : str) : list str :=
  match s with
  | [] => match cur with [] => [] | _ => [rev cur] end
  | c :: s' =>
      if isspace c then
        match cur with
        | [] => split_whitespace_from [] s'
        | _ => rev cur :: split_whitespace_from [] s'
        end
      else split_whitespace_from (c :: cur) s'
  end.

Definition split_whitespace (s : str) : list str :=
  split_whitespace_from [] s.

(** [str(n)] of a length: its decimal digits. *)
Definition str_of_nat (n : nat) : str :=
  py (NilEmpty.string_of_uint (Nat.to_uint n)).

(** [for x in xs: body(x)] *)
Fixpoint for_each {S A : Type} (xs : list A) (body : A -> M S unit)
    : M S unit :=
  match xs with
  | [] => ret tt
  | x :: xs' => bind (body x) (fun _ => for_each xs' body)
  end.

(** [str(x)] of a string or [None], as an f-string formats it. *)
Definition format_optional (x : option str) : str :=
  match x with
  | Some s => s
  | None => py "None"
  end.

(** A function that only works on a record, called where the state is
    something else. *)
Definition reading {S A : Type} (record : dict) (m : M dict A) : M S A :=
  fun s => (fst (m record), s).

(** [d[key]] on the dictionary held in the state. *)
Definition getitem (key : str) : M dict str :=
  fun d =>
    match d !! key with
    | Some v => (Return v, d)
    | None => (Raise (KeyError key), d)
    end.

End Python.

Notation "x <- m ;; k" := (Python.bind m (fun x => k))
  (at level 100, m at next level, right associativity,
   format "x  <-  m  ;;  '/' k").
Notation "m ;;; k" := (Python.bind m (fun _ => k))
  (at level 100, right associativity).

(** ** The fragment of Jinja2 that the tool uses

    Rendering a template from a source string with keyword variables, in the
    default environment: the source is literal text and [{{ name }}]
    expressions, one trailing newline of the source is dropped, a variable is
    replaced by its value without escaping, and an undefined variable renders
    as the empty string. *)
Module Jinja2.
Import Python.

Inductive piece : Type :=
| Text (s : str)
| Var (name : str).

Definition open_brace : N := 123.
Definition close_brace : N := 125.

(** Lexer: [acc] holds the current text or expression in reverse; [inexpr]
    tells whether the position is inside [{{ ... }}]. *)
Fixpoint lex (inexpr : bool) (acc : str) (s : str) : list piece :=
  match s with
  | [] => if inexpr then [] else [Text (rev acc)]
  | c :: s' =>
      match s' with
      | c' :: s'' =>
          if negb inexpr && (c =? open_brace) && (c' =? open_brace)
          then Text (rev acc) :: lex true [] s''
          else if inexpr && (c =? close_brace) && (c' =? close_brace)
          then Var (strip (rev acc)) :: lex false [] s''
          else lex inexpr (c :: acc) s'
      | [] => lex inexpr (c :: acc) s'
      end
  end.

Definition drop_trailing_newline (s : str) : str :=
  match rev s with
  | 10 :: r => rev r
  | _ => s
  end.

Definition Template (source : str) : list piece :=
  lex false [] (drop_trailing_newline source).

Definition render_piece (vars : dict) (p : piece) : str :=
  match p with
  | Text s => s
  | Var name => default [] (vars !! name)
  end.

Definition render (t : list piece) (vars : dict) : str :=
  concat (map (render_piece vars) t).

End Jinja2.

(** ** Netmiko, as the tool sees it

    The library is outside the repository.  Its behaviour is a parameter: a
    [netmiko] answers every call of the tool, and may let the answer depend
    on everything that happened before (the trace). *)
Module Netmiko.
Import Python.

(** The identity of a connection object. *)
Definition handle : Type := N.

Inductive event : Type :=
| EvConnectHandler (device : dict) (r : outcome handle)
| EvEnable (conn : handle) (r : outcome unit)
| EvSendCommand (conn : handle) (command : str) (r : outcome str)
| EvSendConfigSet (conn : handle) (commands : list str) (r : outcome str)
| EvDisconnect (conn : handle) (r : outcome unit)
| EvPrint (line : str).

Abbreviation trace := (list event).

Record netmiko : Type := {
  ConnectHandler : trace -> dict -> outcome handle;
  enable : trace -> handle -> outcome unit;
  send_command : trace -> handle -> str -> outcome str;
  send_config_set : trace -> handle -> list str -> outcome str;
  disconnect : trace -> handle -> outcome unit
}.

(** A call of the library: ask the world, record the call and its
    outcome. *)
Definition call {A : Type} (answer : trace -> outcome A)
    (ev : outcome A -> event) : M trace A :=
  fun t => (answer t, t ++ [ev (answer t)]).

(** [print(line)] *)
Definition print (line : str) : M trace unit :=
  fun t => (Return tt, t ++ [EvPrint line]).

(** [click.echo(message)] writes the message, or nothing for [None], and a
    newline to the standard output, as [print] does. *)
Definition echo (message : option str) : M trace unit :=
  print (default [] message).

End Netmiko.

(** ** The module [inventory_tool]

    It is not among the sources: its two functions are parameters, which
    return or raise. *)
Module InventoryTool.
Import Python Netmiko.

Record inventory_tool : Type := {
  read_inventory : str -> outcome (list dict);
  get_device_data : list dict -> str -> outcome (option dict)
}.

(** A call of one of the two functions. *)
Definition ask {A : Type} (r : outcome A) : M trace A := fun t => (r, t).

End InventoryTool.

(** ** src/task-4/configuration_tool.py

    The functions in the order of the file; its [main], a demonstration
    that prints the interfaces of one device, is left out. *)
Module Task4.
Import Python Netmiko InventoryTool.

(** The record [dev_data] is the state: the function only reads it. *)
Definition get_conn_info : M dict dict :=
  host <- getitem (py "Management IP") ;;
  username <- getitem (py "Username") ;;
  password <- getitem (py "Password") ;;
  secret <- getitem (py "Password") ;;
  ret (dict_of [ (py "device_type", py "cisco_ios");
                 (py "host", host);
                 (py "username", username);
                 (py "password", password);
                 (py "secret", secret) ]).

Section WithWorld.
Variable world : netmiko.

Definition connect_device (device : dict) : M trace (option handle) :=
  try_except
    (conn <- call (fun t => ConnectHandler world t device)
                  (EvConnectHandler device) ;;
     call (fun t => enable world t conn) (EvEnable conn) ;;;
     ret (Some conn))
    (fun e =>
       print (py "Error connecting to device "
              ++ format_optional (device !! py "host")
              ++ py ": " ++ str_of_exception e) ;;;
       ret None).

Definition send_command (connection : option handle) (command : str)
    : M trace str :=
  match connection with
  | Some conn =>
      call (fun t => Netmiko.send_command world t conn command)
           (EvSendCommand conn command)
  | None => ret (py "No connection available")
  end.

Definition send_config (device : dict) (commands : list str)
    : M trace str :=
  conn <- connect_device device ;;
  match conn with
  | None => ret (py "Connection failed; configuration not sent.")
  | Some conn =>
      output <-
        try_finally
          (try_except
             (call (fun t => send_config_set world t conn commands)
                   (EvSendConfigSet conn commands))
             (fun e =>
                ret (py "Error sending configuration: "
                     ++ str_of_exception e)))
          (call (fun t => disconnect world t conn) (EvDisconnect conn)) ;;
      ret output
  end.

Definition create_template : str := py "
interface {{ interface }}
ip address {{ ip_address }} {{ subnet }}
no shutdown
".

Definition delete_template : str := py "
interface {{ interface }}
no ip address
shutdown
".

Definition render_interface_config
    (action interface ip_address subnet_mask : str) : list str :=
  let '(config_vars, template_string) :=
    if decide (action = py "create") then
      (dict_of [ (py "interface", interface);
                 (py "ip_address", ip_address);
                 (py "subnet", subnet_mask) ],
       create_template)
    else
      (dict_of [ (py "interface", interface) ], delete_template) in
  let rendered_config :=
    Jinja2.render (Jinja2.Template template_string) config_vars in
  map strip
    (List.filter (fun line => truthy (strip line))
                 (splitlines rendered_config)).

Definition get_interface_brief (device : dict) : M trace str :=
  conn <- connect_device device ;;
  match conn with
  | None => ret (py "Connection failed; cannot retrieve interface brief.")
  | Some conn =>
      output <-
        try_finally
          (try_except
             (call (fun t => Netmiko.send_command world t conn
                               (py "show ip interface brief"))
                   (EvSendCommand conn (py "show ip interface brief")))
             (fun e =>
                ret (py "Error retrieving interface brief: "
                     ++ str_of_exception e)))
          (call (fun t => disconnect world t conn) (EvDisconnect conn)) ;;
      ret output
  end.

Variable tool : inventory_tool.

(** [command] and [config] are [None] when the option is not given.  A
    connection object is true in a condition, [None] is false. *)
Definition cli_main (device_name : str) (command config : option str)
    : M trace unit :=
  try_except
    (inventory <- ask (read_inventory tool (py "inventory.csv")) ;;
     device_data <- ask (get_device_data tool inventory device_name) ;;
     match true_dict device_data with
     | None =>
         echo (Some (py "Device " ++ device_name
                     ++ py " not found in inventory"))
     | Some device_data =>
         conn_info <- reading device_data get_conn_info ;;
         match true_str command with
         | Some command =>
             connection <- connect_device conn_info ;;
             match connection with
             | None => echo (Some (py "Failed to connect to " ++ device_name))
             | Some conn =>
                 output <- send_command connection command ;;
                 echo (Some (py "Output from " ++ device_name ++ py ":")) ;;;
                 echo (Some output) ;;;
                 call (fun t => disconnect world t conn) (EvDisconnect conn) ;;;
                 ret tt
             end
         | None =>
             match true_str config with
             | Some config =>
                 let config_commands := split config 44 in
                 output <- send_config conn_info config_commands ;;
                 echo (Some (py "Configuration output from " ++ device_name
                             ++ py ":")) ;;;
                 echo (Some output)
             | None =>
                 echo (Some (py "Please specify --command or --config option"))
             end
         end
     end)
    (fun e => echo (Some (py "Error: " ++ str_of_exception e))).

(** [print(brief)] writes the whole text, with the line boundaries it
    holds; [print()] writes an empty line. *)
Definition main : M trace unit :=
  try_except
    (inventory_data <- ask (read_inventory tool (py "inventory.csv")) ;;
     print (py "Loaded " ++ str_of_nat (length inventory_data)
            ++ py " devices from inventory") ;;;
     R1_data <- ask (get_device_data tool inventory_data (py "R1")) ;;
     match true_dict R1_data with
     | Some R1_data =>
         conn_info <- reading R1_data get_conn_info ;;
         brief <- get_interface_brief conn_info ;;
         print (py "Raw Interface Brief Output:") ;;;
         print brief ;;;
         print [] ;;;
         print (py "Formatted Interface Status:") ;;;
         for_each (drop 1 (splitlines brief))
           (fun line =>
              let parts := split_whitespace line in
              if (5 <=? length parts)%nat then
                let interface := nth 0 parts [] in
                let ip_address := nth 1 parts [] in
                let status := nth 4 parts [] in
                print (py "Interface " ++ interface
                       ++ py ": IP: " ++ ip_address
                       ++ py ", Status: " ++ status)
              else ret tt)
     | None => print (py "Device R1 not found in inventory")
     end)
    (fun e => print (py "Error: " ++ str_of_exception e)).

End WithWorld.

End Task4.

(** ** src/configuration_tool.py

    The skeleton the course starts from: [get_conn_info] and the command line
    are written, every other function has the body [pass]. *)
Module Skeleton.
Import Python Netmiko InventoryTool.

Definition get_conn_info : M dict dict :=
  host <- getitem (py "Management IP") ;;
  username <- getitem (py "Username") ;;
  password <- getitem (py "Password") ;;
  secret <- getitem (py "Password") ;;
  ret (dict_of [ (py "device_type", py "cisco_ios");
                 (py "host", host);
                 (py "username", username);
                 (py "password", password);
                 (py "secret", secret) ]).

(** A body [pass] does nothing and returns [None]. *)
Definition connect_device (device : dict) : M trace (option handle) :=
  ret None.

Definition send_command (connection : option handle) (command : str)
    : M trace (option str) :=
  ret None.

Definition send_config (device : dict) (commands : list str)
    : M trace (option str) :=
  ret None.

Definition render_interface_config
    (action interface ip_address subnet_mask : str) : option (list str) :=
  None.

Definition get_interface_brief (device : dict) : M trace (option str) :=
  ret None.

Section WithWorld.
Variable world : netmiko.
Variable tool : inventory_tool.

Definition cli_main (device_name : str) (command config : option str)
    : M trace unit :=
  try_except
    (inventory <- ask (read_inventory tool (py "inventory.csv")) ;;
     device_data <- ask (get_device_data tool inventory device_name) ;;
     match true_dict device_data with
     | None =>
         echo (Some (py "Device " ++ device_name
                     ++ py " not found in inventory"))
     | Some device_data =>
         conn_info <- reading device_data get_conn_info ;;
         match true_str command with
         | Some command =>
             connection <- connect_device conn_info ;;
             match connection with
             | None => echo (Some (py "Failed to connect to " ++ device_name))
             | Some conn =>
                 output <- send_command connection command ;;
                 echo (Some (py "Output from " ++ device_name ++ py ":")) ;;;
                 echo output ;;;
                 call (fun t => disconnect world t conn) (EvDisconnect conn) ;;;
                 ret tt
             end
         | None =>
             match true_str config with
             | Some config =>
                 let config_commands := split config 44 in
                 output <- send_config conn_info config_commands ;;
                 echo (Some (py "Configuration output from " ++ device_name
                             ++ py ":")) ;;;
                 echo output
             | None =>
                 echo (Some (py "Please specify --command or --config option"))
             end
         end
     end)
    (fun e => echo (Some (py "Error: " ++ str_of_exception e))).

End WithWorld.

End Skeleton.

(** ** Vocabulary of the specification *)
Module Spec.
Import Python Netmiko InventoryTool.

(** [s] is not empty and its last character is not whitespace. *)
Definition ends_visible (s : str) : bool :=
  match rev s with
  | c :: _ => negb (isspace c)
  | [] => false
  end.

(** [s] contains no line boundary. *)
Definition one_line (s : str) : bool :=
  forallb (fun c => negb (islinebreak c)) s.

(** [s] is a stripped, non-empty line. *)
Definition trimmed_line (s : str) : Prop := s <> [] /\ strip s = s.

(** [prefix] starts [s]. *)
Fixpoint startswith (prefix s : str) : bool :=
  match prefix, s with
  | [], _ => true
  | p :: prefix', c :: s' => (p =? c) && startswith prefix' s'
  | _ :: _, [] => false
  end.

(** [needle in s] *)
Fixpoint contains (needle s : str) : bool :=
  startswith needle s
  || match s with
     | [] => false
     | _ :: s' => contains needle s'
     end.

(** The call ended normally or with an instance of [Exception]. *)
Definition catchable {A : Type} (r : outcome A) : bool :=
  match r with
  | Return _ => true
  | Raise e => isinstance_Exception e
  end.

(** The events of a trace that send something to the device. *)
Definition is_send (ev : event) : bool :=
  match ev with
  | EvSendCommand _ _ _ | EvSendConfigSet _ _ _ => true
  | _ => false
  end.

Definition sends (es : trace) : trace := List.filter is_send es.

(** How often [conn.disconnect()] was invoked. *)
Definition is_disconnect (conn : handle) (ev : event) : bool :=
  match ev with
  | EvDisconnect c _ => c =? conn
  | _ => false
  end.

Definition disconnects (conn : handle) (es : trace) : nat :=
  length (List.filter (is_disconnect conn) es).

(** The sessions that a run leaves open: created by [ConnectHandler] and not
    disconnected since. *)
Fixpoint left_open (opened : list handle) (es : trace) : list handle :=
  match es with
  | [] => opened
  | EvConnectHandler _ (Return conn) :: es' => left_open (conn :: opened) es'
  | EvDisconnect conn _ :: es' =>
      left_open (List.filter (fun c => negb (c =? conn)) opened) es'
  | _ :: es' => left_open opened es'
  end.

(** The steps in the life of a session, with the payloads left out. *)
Inductive step : Type :=
| Open (ok : bool)
| Elevate (ok : bool)
| Send
| Close
| Report.

Definition succeeded {A : Type} (r : outcome A) : bool :=
  match r with Return _ => true | Raise _ => false end.

Definition step_of (ev : event) : step :=
  match ev with
  | EvConnectHandler _ r => Open (succeeded r)
  | EvEnable _ r => Elevate (succeeded r)
  | EvSendCommand _ _ _ => Send
  | EvSendConfigSet _ _ _ => Send
  | EvDisconnect _ _ => Close
  | EvPrint _ => Report
  end.

(** A Python value of one of the kinds the functions return. *)
Inductive value : Type :=
| VNone
| VStr (s : str)
| VList (l : list str)
| VConn (conn : handle).

Class ToValue (A : Type) := to_value : A -> value.
#[export] Instance str_value : ToValue str := VStr.
#[export] Instance lines_value : ToValue (list str) := VList.
#[export] Instance conn_value : ToValue handle := VConn.
#[export] Instance nullable_value {A : Type} `{ToValue A}
    : ToValue (option A) :=
  fun x => match x with Some a => to_value a | None => VNone end.


(** [sep.join(xs)] *)
Fixpoint join (sep : str) (xs : list str) : str :=
  match xs with
  | [] => []
  | [x] => x
  | x :: xs' => x ++ sep ++ join sep xs'
  end.

(** A field of a table: not empty and without whitespace. *)
Definition field (s : str) : bool :=
  truthy s && forallb (fun c => negb (isspace c)) s.

(** A row of a table: its fields, separated by one blank. *)
Definition row (fields : list str) : str := join [32] fields.

(** A text of several lines, separated by line feeds. *)
Definition text_of (lines : list str) : str := join [10] lines.

(** The events that are calls of the library, and not printed lines. *)
Definition is_call (ev : event) : bool :=
  match ev with
  | EvPrint _ => false
  | _ => true
  end.

Definition calls (es : trace) : trace := List.filter is_call es.

(** The printed lines of a trace. *)
Definition printed (es : trace) : list str :=
  omap (fun ev => match ev with EvPrint line => Some line | _ => None end) es.

(** The call ended normally or with something that is not an [Exception]
    (an interrupt or an exit). *)
Definition no_Exception {A : Type} (r : outcome A) : bool :=
  match r with
  | Return _ => true
  | Raise e => negb (isinstance_Exception e)
  end.

(** The line that the demonstration prints for a row of the table. *)
Definition status_line (fields : list str) : str :=
  py "Interface " ++ nth 0 fields []
  ++ py ": IP: " ++ nth 1 fields []
  ++ py ", Status: " ++ nth 4 fields [].

(** The calls that one run of the command line can make: none; a failed
    opening; a failed elevation; or opening, elevation and one send, followed
    or not by the closing. *)
Definition cli_lifecycle (l : list step) : bool :=
  match l with
  | [] | [Open false] | [Open true; Elevate false]
  | [Open true; Elevate true; Send]
  | [Open true; Elevate true; Send; Close] => true
  | _ => false
  end.

(** The same without the run that ends after the send. *)
Definition closed_lifecycle (l : list step) : bool :=
  match l with
  | [] | [Open false] | [Open true; Elevate false]
  | [Open true; Elevate true; Send; Close] => true
  | _ => false
  end.



(** The status line of a line of the table, if it has five fields. *)
Definition status_of (line : str) : option str :=
  let fields := split_whitespace line in
  if (5 <=? length fields)%nat then Some (status_line fields) else None.

End Spec.

(** ** Sample records and worlds *)
Module Examples.
Import Python Netmiko InventoryTool.

(** An inventory record, and one without its management address. *)
Definition R1 : dict :=
  dict_of [ (py "Name", py "R1");
            (py "Management IP", py "192.0.2.1");
            (py "Username", py "admin");
            (py "Password", py "cisco") ].

Definition R1_without_address : dict :=
  dict_of [ (py "Name", py "R1");
            (py "Username", py "admin");
            (py "Password", py "cisco") ].

(** The connection parameters of two devices. *)
Definition R1_device : dict :=
  dict_of [ (py "device_type", py "cisco_ios");
            (py "host", py "192.0.2.1");
            (py "username", py "admin");
            (py "password", py "cisco");
            (py "secret", py "cisco") ].

Definition R2_device : dict :=
  dict_of [ (py "device_type", py "cisco_ios");
            (py "host", py "192.0.2.2");
            (py "username", py "admin");
            (py "password", py "cisco");
            (py "secret", py "cisco") ].

(** A device that answers every call. *)
Definition reachable : netmiko := {|
  ConnectHandler := fun _ _ => Return 1;
  enable := fun _ _ => Return tt;
  send_command := fun _ _ command => Return (py "output of " ++ command);
  send_config_set := fun _ _ _ => Return (py "configured");
  disconnect := fun _ _ => Return tt
|}.

(** No route to the device: opening the session times out. *)
Definition unreachable : netmiko := {|
  ConnectHandler := fun _ _ => Raise (Raised true (py "connection timed out"));
  enable := fun _ _ => Return tt;
  send_command := fun _ _ command => Return (py "output of " ++ command);
  send_config_set := fun _ _ _ => Return (py "configured");
  disconnect := fun _ _ => Return tt
|}.

(** The device rejects the credentials. *)
Definition rejecting : netmiko := {|
  ConnectHandler := fun _ _ => Raise (Raised true (py "authentication failed"));
  enable := fun _ _ => Return tt;
  send_command := fun _ _ command => Return (py "output of " ++ command);
  send_config_set := fun _ _ _ => Return (py "configured");
  disconnect := fun _ _ => Return tt
|}.

(** The session opens, the privileged mode is refused. *)
Definition unprivileged : netmiko := {|
  ConnectHandler := fun _ _ => Return 1;
  enable := fun _ _ => Raise (Raised true (py "failed to enter enable mode"));
  send_command := fun _ _ command => Return (py "output of " ++ command);
  send_config_set := fun _ _ _ => Return (py "configured");
  disconnect := fun _ _ => Return tt
|}.

(** The session opens, every send fails. *)
Definition flaky : netmiko := {|
  ConnectHandler := fun _ _ => Return 1;
  enable := fun _ _ => Return tt;
  send_command := fun _ _ _ => Raise (Raised true (py "read timed out"));
  send_config_set := fun _ _ _ => Raise (Raised true (py "read timed out"));
  disconnect := fun _ _ => Return tt
|}.

(** An inventory file that lists the device R1. *)
Definition inventory_with_R1 : inventory_tool := {|
  read_inventory := fun _ => Return [R1];
  get_device_data := fun inventory name =>
    Return (List.find (fun record =>
                         bool_decide (record !! py "Name" = Some name))
                      inventory)
|}.

(** The session opens, every send is interrupted from the keyboard. *)
Definition interrupted : netmiko := {|
  ConnectHandler := fun _ _ => Return 1;
  enable := fun _ _ => Return tt;
  send_command := fun _ _ _ => Raise (Raised false (py "KeyboardInterrupt"));
  send_config_set := fun _ _ _ =>
    Raise (Raised false (py "KeyboardInterrupt"));
  disconnect := fun _ _ => Return tt
|}.

(** The session opens, every send fails, and so does the disconnect. *)
Definition closing_fails : netmiko := {|
  ConnectHandler := fun _ _ => Return 1;
  enable := fun _ _ => Return tt;
  send_command := fun _ _ _ => Raise (Raised true (py "read timed out"));
  send_config_set := fun _ _ _ => Raise (Raised true (py "read timed out"));
  disconnect := fun _ _ => Raise (Raised true (py "socket is closed"))
|}.

(** A record of the same device under another name and with a note. *)
Definition R1_annotated : dict :=
  dict_of [ (py "Name", py "edge-router");
            (py "Location", py "lab 2");
            (py "Management IP", py "192.0.2.1");
            (py "Username", py "admin");
            (py "Password", py "cisco") ].

(** An inventory whose record of R1 lacks the management address. *)
Definition inventory_without_address : inventory_tool := {|
  read_inventory := fun _ => Return [R1_without_address];
  get_device_data := fun inventory name =>
    Return (List.find (fun record =>
                         bool_decide (record !! py "Name" = Some name))
                      inventory)
|}.

(** The inventory file cannot be read. *)
Definition inventory_missing : inventory_tool := {|
  read_inventory := fun _ =>
    Raise (Raised true (py "No such file or directory: inventory.csv"));
  get_device_data := fun _ _ => Return None
|}.

(** A device that answers [show ip interface brief] with a table of two
    interfaces. *)
Definition brief_table : list (list str) :=
  [ [py "GigabitEthernet0/0"; py "10.0.0.1"; py "YES"; py "NVRAM";
     py "up"; py "up"];
    [py "GigabitEthernet0/1"; py "unassigned"; py "YES"; py "NVRAM";
     py "administratively"; py "down"; py "down"] ].

Definition brief_header : str :=
  py "Interface              IP-Address      OK? Method Status                Protocol".

Definition router : netmiko := {|
  ConnectHandler := fun _ _ => Return 1;
  enable := fun _ _ => Return tt;
  send_command := fun _ _ _ =>
    Return (Spec.text_of (brief_header :: map Spec.row brief_table));
  send_config_set := fun _ _ _ => Return (py "configured");
  disconnect := fun _ _ => Return tt
|}.

End Examples.

(** * Properties *)

(** ** Strings: stripping and line splitting *)
Section StringFacts.
Import Python Spec.

Lemma lstrip_visible c s : isspace c = false -> lstrip (c :: s) = c :: s.
Proof. intros H. simpl. now rewrite H. Qed.

Lemma lstrip_snoc s c :
  isspace c = false -> lstrip (s ++ [c]) = lstrip s ++ [c].
Proof.
  intros H. induction s as [|d s IH]; simpl.
  - now rewrite H.
  - destruct (isspace d); [exact IH | reflexivity].
Qed.

Lemma rstrip_cons c s : isspace c = false -> rstrip (c :: s) = c :: rstrip s.
Proof.
  intros H. unfold rstrip. simpl rev.
  rewrite lstrip_snoc by exact H.
  now rewrite rev_app_distr.
Qed.

Lemma rstrip_snoc s c : isspace c = false -> rstrip (s ++ [c]) = s ++ [c].
Proof.
  intros H. unfold rstrip. rewrite rev_app_distr. simpl.
  rewrite H. simpl. now rewrite rev_involutive.
Qed.

Lemma ends_visible_snoc s :
  ends_visible s = true -> exists s' c, s = s' ++ [c] /\ isspace c = false.
Proof.
  unfold ends_visible. intros H.
  destruct (rev s) as [|c r] eqn:E; [discriminate|].
  exists (rev r), c. split.
  - rewrite <- (rev_involutive s), E. reflexivity.
  - now apply negb_true_iff.
Qed.

Lemma rstrip_ends_visible p s :
  ends_visible s = true -> rstrip (p ++ s) = p ++ s.
Proof.
  intros H. destruct (ends_visible_snoc s H) as (s' & c & -> & Hc).
  rewrite app_assoc. now apply rstrip_snoc.
Qed.

Lemma strip_cons c s : isspace c = false -> strip (c :: s) = c :: rstrip s.
Proof.
  intros H. unfold strip. rewrite lstrip_visible by exact H.
  now apply rstrip_cons.
Qed.

Lemma lstrip_head s :
  lstrip s = [] \/ exists c s', lstrip s = c :: s' /\ isspace c = false.
Proof.
  induction s as [|c s IH]; simpl; [now left|].
  destruct (isspace c) eqn:E; [exact IH|].
  right. now exists c, s.
Qed.

Lemma rstrip_idem s : rstrip (rstrip s) = rstrip s.
Proof.
  unfold rstrip. rewrite rev_involutive. f_equal.
  destruct (lstrip_head (rev s)) as [-> | (c & s' & -> & Hc)];
    [reflexivity | now apply lstrip_visible].
Qed.

Lemma strip_idem s : strip (strip s) = strip s.
Proof.
  unfold strip at 2 3.
  destruct (lstrip_head s) as [-> | (c & s' & -> & Hc)]; [reflexivity|].
  rewrite rstrip_cons by exact Hc. rewrite strip_cons by exact Hc.
  now rewrite rstrip_idem.
Qed.

Lemma splitlines_from_line line l rest :
  one_line l = true ->
  splitlines_from line (l ++ 10 :: rest)
  = (rev line ++ l) :: splitlines_from [] rest.
Proof.
  revert line. induction l as [|c l IH]; intros line H.
  - simpl. rewrite app_nil_r. destruct rest; reflexivity.
  - simpl in H. apply andb_true_iff in H as [Hc Hl].
    apply negb_true_iff in Hc.
    change ((c :: l) ++ 10 :: rest) with (c :: (l ++ 10 :: rest)).
    cbn [splitlines_from]. rewrite Hc, (IH (c :: line) Hl).
    simpl. now rewrite <- app_assoc.
Qed.

Lemma splitlines_from_last line l :
  one_line l = true ->
  splitlines_from line l
  = match rev line ++ l with [] => [] | _ => [rev line ++ l] end.
Proof.
  revert line. induction l as [|c l IH]; intros line H.
  - simpl. rewrite app_nil_r. destruct line as [|d line]; [reflexivity|].
    simpl. destruct (rev line ++ [d]) eqn:E; [|reflexivity].
    now destruct (rev line).
  - simpl in H. apply andb_true_iff in H as [Hc Hl].
    apply negb_true_iff in Hc.
    cbn [splitlines_from]. rewrite Hc, (IH (c :: line) Hl).
    simpl. now rewrite <- app_assoc.
Qed.

Lemma one_line_app a b :
  one_line (a ++ b) = one_line a && one_line b.
Proof. apply forallb_app. Qed.

(** Every line that the list comprehension of [render_interface_config]
    keeps is stripped and not empty, whatever the rendered text is. *)
Lemma kept_lines_trimmed (lines : list str) :
  Forall trimmed_line
    (map strip (List.filter (fun line => truthy (strip line)) lines)).
Proof.
  induction lines as [|l lines IH]; simpl; [constructor|].
  destruct (truthy (strip l)) eqn:E; [|exact IH].
  simpl. constructor; [|exact IH].
  split; [|apply strip_idem].
  intros Heq. rewrite Heq in E. discriminate.
Qed.

Lemma one_line_rev s : one_line (rev s) = one_line s.
Proof.
  unfold one_line. induction s as [|c s IH]; [reflexivity|].
  simpl. rewrite forallb_app, IH. simpl.
  rewrite andb_true_r. apply andb_comm.
Qed.

Lemma one_line_lstrip s : one_line s = true -> one_line (lstrip s) = true.
Proof.
  induction s as [|c s IH]; [trivial|].
  intros H. simpl. destruct (isspace c); [|exact H].
  simpl in H. apply andb_true_iff in H as [_ H]. now apply IH.
Qed.

Lemma one_line_strip s : one_line s = true -> one_line (strip s) = true.
Proof.
  intros H. unfold strip, rstrip.
  rewrite one_line_rev. apply one_line_lstrip.
  rewrite one_line_rev. now apply one_line_lstrip.
Qed.

(** Every line of [splitlines] is free of line boundaries. *)
Lemma splitlines_from_one_line (n : nat) : forall (s line : str),
  (length s <= n)%nat ->
  one_line line = true ->
  Forall (fun l => one_line l = true) (splitlines_from line s).
Proof.
  induction n as [|n IH]; intros s line Hn Hline.
  - destruct s; [|simpl in Hn; lia].
    simpl. destruct line; constructor; [|constructor].
    now rewrite one_line_rev.
  - destruct s as [|c s]; simpl.
    + destruct line; constructor; [|constructor].
      now rewrite one_line_rev.
    + simpl in Hn. destruct (islinebreak c) eqn:Hc.
      * constructor; [now rewrite one_line_rev|].
        destruct s as [|c' s]; [constructor|].
        simpl in Hn.
        destruct ((c =? 13) && (c' =? 10));
          apply IH; simpl; trivial; lia.
      * apply IH; [lia|]. simpl. now rewrite Hc.
Qed.

Lemma kept_lines_one_line (lines : list str) :
  Forall (fun l => one_line l = true) lines ->
  Forall (fun l => one_line l = true)
    (map strip (List.filter (fun line => truthy (strip line)) lines)).
Proof.
  induction 1 as [|l lines Hl _ IH]; simpl; [constructor|].
  destruct (truthy (strip l)); [|exact IH].
  simpl. constructor; [now apply one_line_strip | exact IH].
Qed.

(** A stripped, non-empty line ends in a visible character. *)
Lemma trimmed_line_ends_visible s : trimmed_line s -> ends_visible s = true.
Proof.
  intros [Hne Hs]. unfold ends_visible.
  rewrite <- Hs at 1. unfold strip, rstrip. rewrite rev_involutive.
  destruct (lstrip_head (rev (lstrip s))) as [H | (c & s' & H & Hc)].
  - exfalso. apply Hne. rewrite <- Hs. unfold strip, rstrip. now rewrite H.
  - rewrite H. now rewrite Hc.
Qed.

Lemma ends_visible_app p s :
  ends_visible (p ++ s)
  = match s with [] => ends_visible p | _ => ends_visible s end.
Proof.
  unfold ends_visible. rewrite rev_app_distr.
  destruct s as [|c s]; [reflexivity|].
  destruct (rev (c :: s)) as [|d r] eqn:E; [|reflexivity].
  apply (f_equal (@length N)) in E. rewrite length_rev in E. discriminate E.
Qed.

End StringFacts.

(** ** The template renderer *)
Section RenderFacts.
Import Python Spec.

Lemma create_template_pieces :
  Jinja2.Template Task4.create_template
  = [ Jinja2.Text (10 :: py "interface ");
      Jinja2.Var (py "interface");
      Jinja2.Text (10 :: py "ip address ");
      Jinja2.Var (py "ip_address");
      Jinja2.Text (py " ");
      Jinja2.Var (py "subnet");
      Jinja2.Text (10 :: py "no shutdown") ].
Proof. vm_compute. reflexivity. Qed.

Lemma delete_template_pieces :
  Jinja2.Template Task4.delete_template
  = [ Jinja2.Text (10 :: py "interface ");
      Jinja2.Var (py "interface");
      Jinja2.Text (10 :: py "no ip address" ++ 10 :: py "shutdown") ].
Proof. vm_compute. reflexivity. Qed.

Lemma rendered_create (interface ip_address subnet_mask : str) :
  Jinja2.render (Jinja2.Template Task4.create_template)
    (dict_of [ (py "interface", interface);
               (py "ip_address", ip_address);
               (py "subnet", subnet_mask) ])
  = (10 :: py "interface ") ++ interface
    ++ (10 :: py "ip address ") ++ ip_address ++ py " " ++ subnet_mask
    ++ (10 :: py "no shutdown").
Proof.
  rewrite create_template_pieces.
  unfold Jinja2.render, dict_of.
  cbn [map Jinja2.render_piece list_to_map foldr fst snd uncurry].
  rewrite lookup_insert_eq.
  rewrite lookup_insert_ne by (vm_compute; discriminate).
  rewrite lookup_insert_eq.
  do 2 rewrite lookup_insert_ne by (vm_compute; discriminate).
  rewrite lookup_insert_eq.
  cbn [concat default]. rewrite app_nil_r. reflexivity.
Qed.

Lemma rendered_delete (interface : str) :
  Jinja2.render (Jinja2.Template Task4.delete_template)
    (dict_of [ (py "interface", interface) ])
  = (10 :: py "interface ") ++ interface
    ++ (10 :: py "no ip address") ++ (10 :: py "shutdown").
Proof.
  rewrite delete_template_pieces.
  unfold Jinja2.render, dict_of.
  cbn [map Jinja2.render_piece list_to_map foldr fst snd uncurry].
  rewrite lookup_insert_eq.
  cbn [concat default]. rewrite app_nil_r.
  reflexivity.
Qed.

Lemma splitlines_three (l1 l2 l3 : str) :
  one_line l1 = true -> one_line l2 = true -> one_line l3 = true ->
  splitlines ((10 :: l1) ++ (10 :: l2) ++ (10 :: l3))
  = [[]; l1; l2] ++ match l3 with [] => [] | _ => [l3] end.
Proof.
  intros H1 H2 H3. unfold splitlines.
  change ((10 :: l1) ++ (10 :: l2) ++ 10 :: l3)
    with ([] ++ 10 :: (l1 ++ 10 :: (l2 ++ 10 :: l3))).
  rewrite (splitlines_from_line [] [] _ eq_refl).
  rewrite (splitlines_from_line [] l1 _ H1).
  rewrite (splitlines_from_line [] l2 _ H2).
  rewrite (splitlines_from_last [] l3 H3).
  reflexivity.
Qed.

(** The result of [render_interface_config] holds only stripped, non-empty
    lines, for all arguments. *)
Lemma render_interface_config_trimmed
    (action interface ip_address subnet_mask : str) :
  Forall trimmed_line
    (Task4.render_interface_config action interface ip_address subnet_mask).
Proof.
  unfold Task4.render_interface_config.
  destruct (decide (action = py "create")); apply kept_lines_trimmed.
Qed.

(** On arguments without line boundaries the create stanza has three lines:
    the two filled-in lines, stripped, and [no shutdown]. *)
Lemma render_create_stripped (interface ip_address subnet_mask : str) :
  one_line interface = true -> one_line ip_address = true ->
  one_line subnet_mask = true ->
  Task4.render_interface_config (py "create") interface ip_address subnet_mask
  = [ strip (py "interface " ++ interface);
      strip (py "ip address " ++ ip_address ++ py " " ++ subnet_mask);
      py "no shutdown" ].
Proof.
  intros Hi Ha Hm. unfold Task4.render_interface_config.
  destruct (decide (py "create" = py "create")) as [_|Hne]; [|now destruct Hne].
  rewrite rendered_create.
  replace ((10 :: py "interface ") ++ interface
           ++ (10 :: py "ip address ") ++ ip_address ++ py " " ++ subnet_mask
           ++ 10 :: py "no shutdown")
    with ((10 :: (py "interface " ++ interface))
          ++ (10 :: (py "ip address " ++ ip_address ++ py " " ++ subnet_mask))
          ++ 10 :: py "no shutdown")
    by (cbn [app]; rewrite <- !app_assoc; reflexivity).
  rewrite splitlines_three.
  - change (py "interface " ++ interface)
      with (105 :: (py "nterface " ++ interface)).
    change (py "ip address " ++ ip_address ++ py " " ++ subnet_mask)
      with (105 :: (py "p address " ++ ip_address ++ py " " ++ subnet_mask)).
    cbn [app List.filter map].
    change (strip []) with (@nil N). cbn [truthy].
    rewrite !strip_cons by reflexivity.
    cbn [truthy List.filter map].
    rewrite !strip_cons by reflexivity.
    reflexivity.
  - rewrite one_line_app, Hi. reflexivity.
  - rewrite !one_line_app, Ha, Hm. reflexivity.
  - reflexivity.
Qed.

(** On an interface name without line boundaries the delete stanza has three
    lines, whatever the action (other than create) and the other arguments. *)
Lemma render_delete_stripped (action interface ip_address subnet_mask : str) :
  action <> py "create" -> one_line interface = true ->
  Task4.render_interface_config action interface ip_address subnet_mask
  = [ strip (py "interface " ++ interface);
      py "no ip address";
      py "shutdown" ].
Proof.
  intros Hne Hi. unfold Task4.render_interface_config.
  destruct (decide (action = py "create")) as [He|_]; [now destruct Hne|].
  rewrite rendered_delete.
  replace ((10 :: py "interface ") ++ interface
           ++ (10 :: py "no ip address") ++ 10 :: py "shutdown")
    with ((10 :: (py "interface " ++ interface))
          ++ (10 :: py "no ip address") ++ 10 :: py "shutdown")
    by (cbn [app]; rewrite <- !app_assoc; reflexivity).
  rewrite splitlines_three.
  - change (py "interface " ++ interface)
      with (105 :: (py "nterface " ++ interface)).
    cbn [app List.filter map].
    change (strip []) with (@nil N). cbn [truthy].
    rewrite !strip_cons by reflexivity.
    cbn [truthy List.filter map].
    rewrite !strip_cons by reflexivity.
    reflexivity.
  - rewrite one_line_app, Hi. reflexivity.
  - reflexivity.
  - reflexivity.
Qed.

End RenderFacts.

Section RenderClaims.
Import Python Spec.

(** Without a create action the address and the mask play no part. *)
Lemma render_delete_ignores_address
    (action interface ip_address subnet_mask ip_address' subnet_mask' : str) :
  action <> py "create" ->
  Task4.render_interface_config action interface ip_address subnet_mask
  = Task4.render_interface_config action interface ip_address' subnet_mask'.
Proof.
  intros Hne. unfold Task4.render_interface_config.
  destruct (decide (action = py "create")) as [He|_]; [now destruct Hne|].
  reflexivity.
Qed.

(** C1 (as amended): for an interface name, an address and a mask that
    contain no line boundary, where the interface name and the mask are not
    empty and do not end in whitespace,
    [render_interface_config("create", ...)] returns exactly the three lines
    [interface <name>], [ip address <address> <mask>] and [no shutdown], in
    that order, each of them non-empty and stripped. *)
Theorem render_interface_config_create
    (interface ip_address subnet_mask : str) :
  one_line interface = true ->
  one_line ip_address = true ->
  one_line subnet_mask = true ->
  ends_visible interface = true ->
  ends_visible subnet_mask = true ->
  Task4.render_interface_config (py "create") interface ip_address subnet_mask
  = [ py "interface " ++ interface;
      py "ip address " ++ ip_address ++ py " " ++ subnet_mask;
      py "no shutdown" ]
  /\ Forall trimmed_line
       (Task4.render_interface_config
          (py "create") interface ip_address subnet_mask).
Proof.
  intros Hi Ha Hm Vi Vm. split; [|apply render_interface_config_trimmed].
  rewrite render_create_stripped by assumption.
  change (py "interface " ++ interface)
    with (105 :: (py "nterface " ++ interface)).
  change (py "ip address " ++ ip_address ++ py " " ++ subnet_mask)
    with (105 :: (py "p address " ++ ip_address ++ py " " ++ subnet_mask)).
  rewrite !strip_cons by reflexivity.
  rewrite (rstrip_ends_visible _ interface Vi).
  rewrite !app_assoc.
  rewrite (rstrip_ends_visible _ subnet_mask Vm).
  reflexivity.
Qed.

(** The example of the specification, obtained from the theorem. *)
Lemma render_interface_config_create_example :
  Task4.render_interface_config
    (py "create") (py "GigabitEthernet0/1") (py "10.0.0.1") (py "255.255.255.0")
  = [ py "interface GigabitEthernet0/1";
      py "ip address 10.0.0.1 255.255.255.0";
      py "no shutdown" ].
Proof.
  exact (proj1 (render_interface_config_create
                  (py "GigabitEthernet0/1") (py "10.0.0.1") (py "255.255.255.0")
                  eq_refl eq_refl eq_refl eq_refl eq_refl)).
Defined.

(** C1 as stated fails: a trailing blank of the interface name is stripped
    from the line, and a line boundary inside the name splits the line. *)
Lemma render_interface_config_create_not_verbatim :
  Task4.render_interface_config
    (py "create") (py "GigabitEthernet0/1 ") (py "10.0.0.1") (py "255.255.255.0")
  <> [ py "interface " ++ py "GigabitEthernet0/1 ";
       py "ip address " ++ py "10.0.0.1" ++ py " " ++ py "255.255.255.0";
       py "no shutdown" ]
  /\ length (Task4.render_interface_config
               (py "create") (py "Gi0/1" ++ [10] ++ py "shutdown")
               (py "10.0.0.1") (py "255.255.255.0")) = 4%nat.
Proof.
  split.
  - intros H. vm_compute in H. discriminate H.
  - vm_compute. reflexivity.
Qed.

(** C2 (as amended): for every action other than [create] the result does
    not depend on the address and the mask, whatever the arguments are; and
    for an interface name that contains no line boundary, is not empty and
    does not end in whitespace it is exactly the three lines
    [interface <name>], [no ip address] and [shutdown]. *)
Theorem render_interface_config_delete
    (action interface ip_address subnet_mask : str) :
  action <> py "create" ->
  (forall ip_address' subnet_mask' : str,
     Task4.render_interface_config action interface ip_address' subnet_mask'
     = Task4.render_interface_config action interface ip_address subnet_mask)
  /\ (one_line interface = true ->
      ends_visible interface = true ->
      Task4.render_interface_config action interface ip_address subnet_mask
      = [ py "interface " ++ interface; py "no ip address"; py "shutdown" ]).
Proof.
  intros Hne. split.
  - intros a' m'. now apply render_delete_ignores_address.
  - intros Hi Vi.
    rewrite render_delete_stripped by assumption.
    change (py "interface " ++ interface)
      with (105 :: (py "nterface " ++ interface)).
    rewrite strip_cons by reflexivity.
    rewrite (rstrip_ends_visible _ interface Vi).
    reflexivity.
Qed.

(** The example of the specification, obtained from the theorem. *)
Lemma render_interface_config_delete_example :
  Task4.render_interface_config
    (py "delete") (py "GigabitEthernet0/1") (py "10.0.0.1") (py "255.255.255.0")
  = [ py "interface GigabitEthernet0/1"; py "no ip address"; py "shutdown" ].
Proof.
  refine (proj2 (render_interface_config_delete
                   (py "delete") (py "GigabitEthernet0/1")
                   (py "10.0.0.1") (py "255.255.255.0") _)
            eq_refl eq_refl).
  vm_compute. discriminate.
Defined.

(** C2 as stated fails: a trailing blank of the interface name is stripped
    from the line, and a line boundary inside the name splits the line. *)
Lemma render_interface_config_delete_not_verbatim :
  Task4.render_interface_config
    (py "delete") (py "GigabitEthernet0/1 ") (py "10.0.0.1") (py "255.255.255.0")
  <> [ py "interface " ++ py "GigabitEthernet0/1 ";
       py "no ip address"; py "shutdown" ]
  /\ length (Task4.render_interface_config
               (py "delete") (py "Gi0/1" ++ [10] ++ py "no shutdown")
               (py "10.0.0.1") (py "255.255.255.0")) = 4%nat.
Proof.
  split.
  - intros H. vm_compute in H. discriminate H.
  - vm_compute. reflexivity.
Qed.

(** The restrictions of the two theorems above are needed: the create
    stanza is the three verbatim lines only for such arguments. *)
Lemma render_create_verbatim_only_if (interface ip_address subnet_mask : str) :
  Task4.render_interface_config (py "create") interface ip_address subnet_mask
  = [ py "interface " ++ interface;
      py "ip address " ++ ip_address ++ py " " ++ subnet_mask;
      py "no shutdown" ] ->
  one_line interface = true /\ one_line ip_address = true
  /\ one_line subnet_mask = true
  /\ ends_visible interface = true /\ ends_visible subnet_mask = true.
Proof.
  intros H.
  pose proof (render_interface_config_trimmed
                (py "create") interface ip_address subnet_mask) as Ht.
  assert (Forall (fun l => one_line l = true)
            (Task4.render_interface_config
               (py "create") interface ip_address subnet_mask)) as Ho.
  { unfold Task4.render_interface_config.
    destruct (decide (py "create" = py "create"));
      apply kept_lines_one_line;
      apply (splitlines_from_one_line _ _ [] (le_n _) eq_refl). }
  rewrite H in Ht, Ho.
  apply Forall_cons_iff in Ht as [T1 Ht].
  apply Forall_cons_iff in Ht as [T2 _].
  apply Forall_cons_iff in Ho as [O1 Ho].
  apply Forall_cons_iff in Ho as [O2 _].
  rewrite one_line_app in O1. apply andb_true_iff in O1 as [_ O1].
  rewrite !one_line_app in O2.
  apply andb_true_iff in O2 as [_ O2].
  apply andb_true_iff in O2 as [O2 O3].
  apply andb_true_iff in O3 as [_ O3].
  apply trimmed_line_ends_visible in T1, T2.
  rewrite ends_visible_app in T1.
  rewrite !app_assoc, ends_visible_app in T2.
  repeat split; trivial.
  - destruct interface; [discriminate T1 | exact T1].
  - destruct subnet_mask; [|exact T2].
    rewrite ends_visible_app in T2. discriminate T2.
Qed.

Lemma render_delete_verbatim_only_if
    (action interface ip_address subnet_mask : str) :
  Task4.render_interface_config action interface ip_address subnet_mask
  = [ py "interface " ++ interface; py "no ip address"; py "shutdown" ] ->
  one_line interface = true /\ ends_visible interface = true.
Proof.
  intros H.
  pose proof (render_interface_config_trimmed
                action interface ip_address subnet_mask) as Ht.
  assert (Forall (fun l => one_line l = true)
            (Task4.render_interface_config
               action interface ip_address subnet_mask)) as Ho.
  { unfold Task4.render_interface_config.
    destruct (decide (action = py "create"));
      apply kept_lines_one_line;
      apply (splitlines_from_one_line _ _ [] (le_n _) eq_refl). }
  rewrite H in Ht, Ho.
  apply Forall_cons_iff in Ht as [T1 _].
  apply Forall_cons_iff in Ho as [O1 _].
  rewrite one_line_app in O1. apply andb_true_iff in O1 as [_ O1].
  apply trimmed_line_ends_visible in T1.
  rewrite ends_visible_app in T1.
  split; [exact O1|].
  destruct interface; [discriminate T1 | exact T1].
Qed.

End RenderClaims.

(** ** Sessions *)
Section SessionFacts.
Import Python Netmiko Spec.
Variable world : netmiko.

(** [ConnectHandler] raises: an [Exception] is reported and [None]
    returned, anything else passes. *)
Lemma connect_device_open_raises (device : dict) (t : trace) (e : exception) :
  ConnectHandler world t device = Raise e ->
  Task4.connect_device world device t
  = if isinstance_Exception e then
      (Return None,
       t ++ [ EvConnectHandler device (Raise e);
              EvPrint (py "Error connecting to device "
                       ++ format_optional (device !! py "host")
                       ++ py ": " ++ str_of_exception e) ])
    else (Raise e, t ++ [ EvConnectHandler device (Raise e) ]).
Proof.
  intros H. unfold Task4.connect_device, try_except, bind, call, print, ret.
  rewrite H. destruct (isinstance_Exception e); [|reflexivity].
  now rewrite <- app_assoc.
Qed.

(** [enable] raises: the same, and the connection is not returned. *)
Lemma connect_device_enable_raises
    (device : dict) (t : trace) (conn : handle) (e : exception) :
  ConnectHandler world t device = Return conn ->
  enable world (t ++ [EvConnectHandler device (Return conn)]) conn = Raise e ->
  Task4.connect_device world device t
  = if isinstance_Exception e then
      (Return None,
       t ++ [ EvConnectHandler device (Return conn);
              EvEnable conn (Raise e);
              EvPrint (py "Error connecting to device "
                       ++ format_optional (device !! py "host")
                       ++ py ": " ++ str_of_exception e) ])
    else (Raise e, t ++ [ EvConnectHandler device (Return conn);
                          EvEnable conn (Raise e) ]).
Proof.
  intros H1 H2.
  unfold Task4.connect_device, try_except, bind, call, print, ret.
  rewrite H1, H2. destruct (isinstance_Exception e);
    now rewrite <- !app_assoc.
Qed.

(** Both calls return: the connection is returned. *)
Lemma connect_device_opens (device : dict) (t : trace) (conn : handle) :
  ConnectHandler world t device = Return conn ->
  enable world (t ++ [EvConnectHandler device (Return conn)]) conn = Return tt ->
  Task4.connect_device world device t
  = (Return (Some conn),
     t ++ [ EvConnectHandler device (Return conn); EvEnable conn (Return tt) ]).
Proof.
  intros H1 H2.
  unfold Task4.connect_device, try_except, bind, call, print, ret.
  rewrite H1, H2. now rewrite <- !app_assoc.
Qed.

(** A connection is returned only after [ConnectHandler] and [enable] both
    returned. *)
Lemma connect_device_Some_inv (device : dict) (t t1 : trace) (conn : handle) :
  Task4.connect_device world device t = (Return (Some conn), t1) ->
  ConnectHandler world t device = Return conn
  /\ enable world (t ++ [EvConnectHandler device (Return conn)]) conn = Return tt
  /\ t1 = t ++ [ EvConnectHandler device (Return conn);
                 EvEnable conn (Return tt) ].
Proof.
  intros H.
  destruct (ConnectHandler world t device) as [c|e] eqn:H1.
  - destruct (enable world (t ++ [EvConnectHandler device (Return c)]) c)
      as [[]|e] eqn:H2.
    + rewrite (connect_device_opens _ _ _ H1 H2) in H.
      injection H as -> <-. auto.
    + rewrite (connect_device_enable_raises _ _ _ _ H1 H2) in H.
      destruct (isinstance_Exception e); discriminate H.
  - rewrite (connect_device_open_raises _ _ _ H1) in H.
    destruct (isinstance_Exception e); discriminate H.
Qed.

(** Once the session is open, [send_config] sends the batch and then
    disconnects, whatever the two calls answer. *)
Lemma send_config_opened
    (device : dict) (commands : list str) (t t1 : trace) (conn : handle) :
  Task4.connect_device world device t = (Return (Some conn), t1) ->
  Task4.send_config world device commands t
  = let sent := send_config_set world t1 conn commands in
    let closed :=
      disconnect world (t1 ++ [EvSendConfigSet conn commands sent]) conn in
    (match closed with
     | Raise e' => Raise e'
     | Return _ =>
         match sent with
         | Return output => Return output
         | Raise e =>
             if isinstance_Exception e
             then Return (py "Error sending configuration: "
                          ++ str_of_exception e)
             else Raise e
         end
     end,
     t1 ++ [ EvSendConfigSet conn commands sent; EvDisconnect conn closed ]).
Proof.
  intros H. unfold Task4.send_config, bind at 1. rewrite H.
  unfold bind, try_finally, try_except, call, ret. cbv zeta.
  destruct (send_config_set world t1 conn commands) as [out|e].
  - destruct (disconnect world _ conn); now rewrite <- app_assoc.
  - destruct (isinstance_Exception e);
      destruct (disconnect world _ conn); now rewrite <- app_assoc.
Qed.

(** Without a connection nothing more happens. *)
Lemma send_config_not_opened
    (device : dict) (commands : list str) (t t1 : trace) :
  Task4.connect_device world device t = (Return None, t1) ->
  Task4.send_config world device commands t
  = (Return (py "Connection failed; configuration not sent."), t1).
Proof.
  intros H. unfold Task4.send_config, bind. now rewrite H.
Qed.

(** The same for [get_interface_brief] and its one command. *)
Lemma get_interface_brief_opened
    (device : dict) (t t1 : trace) (conn : handle) :
  Task4.connect_device world device t = (Return (Some conn), t1) ->
  Task4.get_interface_brief world device t
  = let command := py "show ip interface brief" in
    let sent := Netmiko.send_command world t1 conn command in
    let closed :=
      disconnect world (t1 ++ [EvSendCommand conn command sent]) conn in
    (match closed with
     | Raise e' => Raise e'
     | Return _ =>
         match sent with
         | Return output => Return output
         | Raise e =>
             if isinstance_Exception e
             then Return (py "Error retrieving interface brief: "
                          ++ str_of_exception e)
             else Raise e
         end
     end,
     t1 ++ [ EvSendCommand conn command sent; EvDisconnect conn closed ]).
Proof.
  intros H. unfold Task4.get_interface_brief, bind at 1. rewrite H.
  unfold bind, try_finally, try_except, call, ret. cbv zeta.
  destruct (Netmiko.send_command world t1 conn _) as [out|e].
  - destruct (disconnect world _ conn); now rewrite <- app_assoc.
  - destruct (isinstance_Exception e);
      destruct (disconnect world _ conn); now rewrite <- app_assoc.
Qed.

Lemma get_interface_brief_not_opened (device : dict) (t t1 : trace) :
  Task4.connect_device world device t = (Return None, t1) ->
  Task4.get_interface_brief world device t
  = (Return (py "Connection failed; cannot retrieve interface brief."), t1).
Proof.
  intros H. unfold Task4.get_interface_brief, bind. now rewrite H.
Qed.

Lemma get_interface_brief_open_raised
    (device : dict) (t t1 : trace) (e : exception) :
  Task4.connect_device world device t = (Raise e, t1) ->
  Task4.get_interface_brief world device t = (Raise e, t1).
Proof.
  intros H. unfold Task4.get_interface_brief, bind. now rewrite H.
Qed.

Lemma send_config_open_raised
    (device : dict) (commands : list str) (t t1 : trace) (e : exception) :
  Task4.connect_device world device t = (Raise e, t1) ->
  Task4.send_config world device commands t = (Raise e, t1).
Proof.
  intros H. unfold Task4.send_config, bind. now rewrite H.
Qed.

End SessionFacts.

Section SessionClaims.
Import Python Netmiko Spec.

(** C5: without a connection [send_command] returns the text
    [No connection available] and calls nothing (so nothing can raise); with
    a connection it sends the command once and returns what the device
    answers. *)
Theorem send_command_absent_or_present
    (world : netmiko) (command : str) (t : trace) :
  Task4.send_command world None command t
  = (Return (py "No connection available"), t)
  /\ forall conn : handle,
       Task4.send_command world (Some conn) command t
       = (Netmiko.send_command world t conn command,
          t ++ [ EvSendCommand conn command
                   (Netmiko.send_command world t conn command) ])
       /\ forall output : str,
            Netmiko.send_command world t conn command = Return output ->
            fst (Task4.send_command world (Some conn) command t)
            = Return output.
Proof.
  split; [reflexivity|]. intros conn. split; [reflexivity|].
  intros output H. unfold Task4.send_command, call. simpl. exact H.
Qed.

(** C6 (as amended): when the host is unreachable ([ConnectHandler] raises
    an exception), [send_config] returns the fixed text
    [Connection failed; configuration not sent.], whatever the cause is;
    the run is the failed opening followed by the line that
    [connect_device] prints, which alone holds the host and the cause:
    nothing is sent and no session is left open. *)
Theorem send_config_unreachable
    (world : netmiko) (device : dict) (commands : list str) (t : trace)
    (e : exception) :
  ConnectHandler world t device = Raise e ->
  isinstance_Exception e = true ->
  Task4.send_config world device commands t
  = (Return (py "Connection failed; configuration not sent."),
     t ++ [ EvConnectHandler device (Raise e);
            EvPrint (py "Error connecting to device "
                     ++ format_optional (device !! py "host")
                     ++ py ": " ++ str_of_exception e) ])
  /\ sends [ EvConnectHandler device (Raise e);
             EvPrint (py "Error connecting to device "
                      ++ format_optional (device !! py "host")
                      ++ py ": " ++ str_of_exception e) ] = []
  /\ left_open []
       [ EvConnectHandler device (Raise e);
         EvPrint (py "Error connecting to device "
                  ++ format_optional (device !! py "host")
                  ++ py ": " ++ str_of_exception e) ] = [].
Proof.
  intros H He.
  pose proof (connect_device_open_raises world device t e H) as Hc.
  rewrite He in Hc.
  rewrite (send_config_not_opened world device commands t _ Hc).
  repeat split; reflexivity.
Qed.

(** The theorem at the sample device that cannot be reached. *)
Lemma send_config_unreachable_example :
  Task4.send_config Examples.unreachable Examples.R1_device
    [py "interface GigabitEthernet0/1"; py "no shutdown"] []
  = (Return (py "Connection failed; configuration not sent."),
     [ EvConnectHandler Examples.R1_device
         (Raise (Raised true (py "connection timed out")));
       EvPrint
         (py "Error connecting to device 192.0.2.1: connection timed out") ]).
Proof.
  exact (proj1 (send_config_unreachable
                  Examples.unreachable Examples.R1_device
                  [py "interface GigabitEthernet0/1"; py "no shutdown"] []
                  (Raised true (py "connection timed out"))
                  eq_refl eq_refl)).
Defined.

(** C6 as stated fails: against a host that times out and against a host
    that rejects the credentials [send_config] returns the same text, which
    holds neither cause (nor the host). *)
Lemma send_config_unreachable_text_without_cause :
  fst (Task4.send_config Examples.unreachable Examples.R1_device
         [py "interface GigabitEthernet0/1"; py "no shutdown"] [])
  = Return (py "Connection failed; configuration not sent.")
  /\ fst (Task4.send_config Examples.rejecting Examples.R2_device
            [py "interface GigabitEthernet0/1"; py "no shutdown"] [])
     = Return (py "Connection failed; configuration not sent.")
  /\ ConnectHandler Examples.unreachable [] Examples.R1_device
     = Raise (Raised true (py "connection timed out"))
  /\ ConnectHandler Examples.rejecting [] Examples.R2_device
     = Raise (Raised true (py "authentication failed"))
  /\ contains (py "connection timed out")
       (py "Connection failed; configuration not sent.") = false
  /\ contains (py "authentication failed")
       (py "Connection failed; configuration not sent.") = false
  /\ contains (py "192.0.2.1")
       (py "Connection failed; configuration not sent.") = false.
Proof. repeat split; reflexivity. Qed.

(** The five ways in which [connect_device] can end. *)
Lemma connect_device_cases (world : netmiko) (device : dict) (t : trace) :
  let report e :=
    EvPrint (py "Error connecting to device "
             ++ format_optional (device !! py "host")
             ++ py ": " ++ str_of_exception e) in
  (exists e, isinstance_Exception e = true
     /\ ConnectHandler world t device = Raise e
     /\ Task4.connect_device world device t
        = (Return None, t ++ [EvConnectHandler device (Raise e); report e]))
  \/ (exists e, isinstance_Exception e = false
     /\ ConnectHandler world t device = Raise e
     /\ Task4.connect_device world device t
        = (Raise e, t ++ [EvConnectHandler device (Raise e)]))
  \/ (exists conn e, isinstance_Exception e = true
     /\ enable world (t ++ [EvConnectHandler device (Return conn)]) conn
        = Raise e
     /\ Task4.connect_device world device t
        = (Return None,
           t ++ [ EvConnectHandler device (Return conn);
                  EvEnable conn (Raise e); report e ]))
  \/ (exists conn e, isinstance_Exception e = false
     /\ enable world (t ++ [EvConnectHandler device (Return conn)]) conn
        = Raise e
     /\ Task4.connect_device world device t
        = (Raise e,
           t ++ [ EvConnectHandler device (Return conn);
                  EvEnable conn (Raise e) ]))
  \/ (exists conn,
       Task4.connect_device world device t
       = (Return (Some conn),
          t ++ [ EvConnectHandler device (Return conn);
                 EvEnable conn (Return tt) ])).
Proof.
  intros report.
  destruct (ConnectHandler world t device) as [conn|e] eqn:H1.
  - destruct (enable world (t ++ [EvConnectHandler device (Return conn)]) conn)
      as [[]|e] eqn:H2.
    + do 4 right. exists conn. now apply connect_device_opens.
    + pose proof (connect_device_enable_raises world _ _ _ _ H1 H2) as H.
      destruct (isinstance_Exception e) eqn:He.
      * do 2 right. left. now exists conn, e.
      * do 3 right. left. now exists conn, e.
  - pose proof (connect_device_open_raises world _ _ _ H1) as H.
    destruct (isinstance_Exception e) eqn:He.
    + left. now exists e.
    + right. left. now exists e.
Qed.

(** C8 (as amended): when [ConnectHandler] and [enable] raise nothing but
    instances of [Exception], [connect_device] never raises: if both calls
    return it returns the connection, opened and elevated; if
    [ConnectHandler] raises, or [enable] raises after it, it prints
    [Error connecting to device <host>: <cause>] and returns [None], so that
    the host and the cause are printed and not carried by the returned
    value. *)
Theorem connect_device_never_raises
    (world : netmiko) (device : dict) (t : trace) :
  catchable (ConnectHandler world t device) = true ->
  (forall conn : handle,
     catchable
       (enable world (t ++ [EvConnectHandler device (Return conn)]) conn)
     = true) ->
  Task4.connect_device world device t
  = match ConnectHandler world t device with
    | Raise e =>
        (Return None,
         t ++ [ EvConnectHandler device (Raise e);
                EvPrint (py "Error connecting to device "
                         ++ format_optional (device !! py "host")
                         ++ py ": " ++ str_of_exception e) ])
    | Return conn =>
        match enable world (t ++ [EvConnectHandler device (Return conn)]) conn
        with
        | Return _ =>
            (Return (Some conn),
             t ++ [ EvConnectHandler device (Return conn);
                    EvEnable conn (Return tt) ])
        | Raise e =>
            (Return None,
             t ++ [ EvConnectHandler device (Return conn);
                    EvEnable conn (Raise e);
                    EvPrint (py "Error connecting to device "
                             ++ format_optional (device !! py "host")
                             ++ py ": " ++ str_of_exception e) ])
        end
    end
  /\ succeeded (fst (Task4.connect_device world device t)) = true.
Proof.
  intros Hopen Helev.
  assert (Task4.connect_device world device t
          = match ConnectHandler world t device with
            | Raise e =>
                (Return None,
                 t ++ [ EvConnectHandler device (Raise e);
                        EvPrint (py "Error connecting to device "
                                 ++ format_optional (device !! py "host")
                                 ++ py ": " ++ str_of_exception e) ])
            | Return conn =>
                match enable world
                        (t ++ [EvConnectHandler device (Return conn)]) conn
                with
                | Return _ =>
                    (Return (Some conn),
                     t ++ [ EvConnectHandler device (Return conn);
                            EvEnable conn (Return tt) ])
                | Raise e =>
                    (Return None,
                     t ++ [ EvConnectHandler device (Return conn);
                            EvEnable conn (Raise e);
                            EvPrint (py "Error connecting to device "
                                     ++ format_optional (device !! py "host")
                                     ++ py ": " ++ str_of_exception e) ])
                end
            end) as Heq.
  { destruct (ConnectHandler world t device) as [conn|e] eqn:H1.
    - specialize (Helev conn).
      destruct (enable world (t ++ [EvConnectHandler device (Return conn)])
                  conn) as [[]|e] eqn:H2.
      + now apply connect_device_opens.
      + rewrite (connect_device_enable_raises world _ _ _ _ H1 H2).
        simpl in Helev. now rewrite Helev.
    - rewrite (connect_device_open_raises world _ _ _ H1).
      simpl in Hopen. now rewrite Hopen. }
  split; [exact Heq|].
  rewrite Heq.
  destruct (ConnectHandler world t device) as [conn|e]; [|reflexivity].
  destruct (enable world (t ++ [EvConnectHandler device (Return conn)]) conn);
    reflexivity.
Qed.

(** The theorem at the sample device that cannot be reached and at the one
    that answers. *)
Lemma connect_device_never_raises_example :
  Task4.connect_device Examples.unreachable Examples.R1_device []
  = (Return None,
     [ EvConnectHandler Examples.R1_device
         (Raise (Raised true (py "connection timed out")));
       EvPrint
         (py "Error connecting to device 192.0.2.1: connection timed out") ])
  /\ Task4.connect_device Examples.reachable Examples.R1_device []
     = (Return (Some 1),
        [ EvConnectHandler Examples.R1_device (Return 1);
          EvEnable 1 (Return tt) ]).
Proof.
  split.
  - exact (proj1 (connect_device_never_raises
                    Examples.unreachable Examples.R1_device []
                    eq_refl (fun _ => eq_refl))).
  - exact (proj1 (connect_device_never_raises
                    Examples.reachable Examples.R1_device []
                    eq_refl (fun _ => eq_refl))).
Defined.

(** C8 as stated fails: two failures with different hosts and different
    causes return the same value, [None], which therefore carries neither. *)
Lemma connect_device_failure_carries_nothing :
  fst (Task4.connect_device Examples.unreachable Examples.R1_device [])
  = Return None
  /\ fst (Task4.connect_device Examples.rejecting Examples.R2_device [])
     = Return None
  /\ Examples.R1_device !! py "host" <> Examples.R2_device !! py "host"
  /\ ConnectHandler Examples.unreachable [] Examples.R1_device
     <> ConnectHandler Examples.rejecting [] Examples.R2_device.
Proof.
  repeat split; try reflexivity.
  - vm_compute. discriminate.
  - vm_compute. discriminate.
Qed.

(** When the privileged mode is refused, [connect_device] returns [None]
    without disconnecting the session that [ConnectHandler] opened. *)
Lemma enable_failure_leaves_session_open :
  fst (Task4.connect_device Examples.unprivileged Examples.R1_device [])
  = Return None
  /\ left_open []
       (snd (Task4.connect_device Examples.unprivileged Examples.R1_device []))
     = [1]
  /\ left_open []
       (snd (Task4.send_config Examples.unprivileged Examples.R1_device
               [py "interface GigabitEthernet0/1"; py "no shutdown"] []))
     = [1].
Proof. repeat split; reflexivity. Qed.

(** C3 (as amended): when [connect_device] returns a connection, the run
    of [send_config] is the opening, the elevation, one send of the batch
    and one [disconnect] of that connection, in this order and on every
    path, whatever the send and the disconnect answer.  When the disconnect
    returns, the result is the output of the device, or the text
    [Error sending configuration: <cause>] for a send that raised an
    [Exception]; an exception of the disconnect, and after the disconnect
    an interrupt of the send, are propagated. *)
Theorem send_config_closes_session_once
    (world : netmiko) (device : dict) (commands : list str) (t : trace)
    (conn : handle) :
  fst (Task4.connect_device world device t) = Return (Some conn) ->
  let opened :=
    t ++ [EvConnectHandler device (Return conn); EvEnable conn (Return tt)] in
  let sent := send_config_set world opened conn commands in
  let closed :=
    disconnect world (opened ++ [EvSendConfigSet conn commands sent]) conn in
  Task4.send_config world device commands t
  = (match closed with
     | Raise e' => Raise e'
     | Return _ =>
         match sent with
         | Return output => Return output
         | Raise e =>
             if isinstance_Exception e
             then Return (py "Error sending configuration: "
                          ++ str_of_exception e)
             else Raise e
         end
     end,
     opened ++ [EvSendConfigSet conn commands sent; EvDisconnect conn closed])
  /\ disconnects conn
       [ EvConnectHandler device (Return conn); EvEnable conn (Return tt);
         EvSendConfigSet conn commands sent; EvDisconnect conn closed ]
     = 1%nat
  /\ left_open []
       [ EvConnectHandler device (Return conn); EvEnable conn (Return tt);
         EvSendConfigSet conn commands sent; EvDisconnect conn closed ]
     = []
  /\ (forall e : exception,
        sent = Raise e ->
        isinstance_Exception e = true ->
        closed = Return tt ->
        fst (Task4.send_config world device commands t)
        = Return (py "Error sending configuration: " ++ str_of_exception e))
  /\ (forall output : str,
        sent = Return output ->
        closed = Return tt ->
        fst (Task4.send_config world device commands t) = Return output).
Proof.
  intros H opened sent closed.
  destruct (Task4.connect_device world device t) as [r t1] eqn:Hc.
  simpl in H. subst r.
  destruct (connect_device_Some_inv world _ _ _ _ Hc) as (_ & _ & Ht1).
  fold opened in Ht1. subst t1.
  pose proof (send_config_opened world device commands t _ conn Hc) as Hs.
  cbv zeta in Hs. fold sent in Hs. fold closed in Hs.
  split; [exact Hs|].
  split; [unfold disconnects; simpl; now rewrite N.eqb_refl|].
  split; [simpl; now rewrite N.eqb_refl|].
  split.
  - intros e Hsent He Hclosed. rewrite Hs, Hclosed, Hsent. simpl.
    now rewrite He.
  - intros output Hsent Hclosed. rewrite Hs, Hclosed, Hsent. reflexivity.
Qed.

(** The theorem at the sample device whose sends fail. *)
Lemma send_config_closes_session_once_example :
  Task4.send_config Examples.flaky Examples.R1_device
    [py "interface GigabitEthernet0/1"; py "no shutdown"] []
  = (Return (py "Error sending configuration: read timed out"),
     [ EvConnectHandler Examples.R1_device (Return 1);
       EvEnable 1 (Return tt);
       EvSendConfigSet 1
         [py "interface GigabitEthernet0/1"; py "no shutdown"]
         (Raise (Raised true (py "read timed out")));
       EvDisconnect 1 (Return tt) ]).
Proof.
  exact (proj1 (send_config_closes_session_once
                  Examples.flaky Examples.R1_device
                  [py "interface GigabitEthernet0/1"; py "no shutdown"] [] 1
                  eq_refl)).
Defined.

(** C3 as stated fails: with an open session, an exception of the send is
    turned into a text that the caller never gets when the disconnect
    raises, and an interrupt of the send is not caught at all; in both runs
    the session was opened and the disconnect invoked once. *)
Lemma send_config_error_text_not_returned :
  fst (Task4.connect_device Examples.closing_fails Examples.R1_device [])
  = Return (Some 1)
  /\ send_config_set Examples.closing_fails
       [ EvConnectHandler Examples.R1_device (Return 1);
         EvEnable 1 (Return tt) ] 1
       [py "interface GigabitEthernet0/1"; py "no shutdown"]
     = Raise (Raised true (py "read timed out"))
  /\ fst (Task4.send_config Examples.closing_fails Examples.R1_device
            [py "interface GigabitEthernet0/1"; py "no shutdown"] [])
     = Raise (Raised true (py "socket is closed"))
  /\ fst (Task4.connect_device Examples.interrupted Examples.R1_device [])
     = Return (Some 1)
  /\ Task4.send_config Examples.interrupted Examples.R1_device
       [py "interface GigabitEthernet0/1"; py "no shutdown"] []
     = (Raise (Raised false (py "KeyboardInterrupt")),
        [ EvConnectHandler Examples.R1_device (Return 1);
          EvEnable 1 (Return tt);
          EvSendConfigSet 1
            [py "interface GigabitEthernet0/1"; py "no shutdown"]
            (Raise (Raised false (py "KeyboardInterrupt")));
          EvDisconnect 1 (Return tt) ]).
Proof. repeat split; reflexivity. Qed.

(** With the failing sends of the sample world the caller gets the error
    text and the session is closed. *)
Lemma send_config_flaky_run :
  Task4.send_config Examples.flaky Examples.R1_device
    [py "interface GigabitEthernet0/1"; py "no shutdown"] []
  = (Return (py "Error sending configuration: read timed out"),
     [ EvConnectHandler Examples.R1_device (Return 1);
       EvEnable 1 (Return tt);
       EvSendConfigSet 1
         [py "interface GigabitEthernet0/1"; py "no shutdown"]
         (Raise (Raised true (py "read timed out")));
       EvDisconnect 1 (Return tt) ]).
Proof. reflexivity. Qed.

(** C9 (as amended): [get_interface_brief] has the lifecycle of
    [send_config]: it opens its own session through [connect_device]; when
    that returns a connection it sends the one command
    [show ip interface brief] and then disconnects, once, whatever the send
    answers; when the disconnect returns, the result is the output of the
    device, or the text [Error retrieving interface brief: <cause>] for a
    send that raised an [Exception] (an exception of the disconnect, and an
    interrupt of the send, are propagated); when [connect_device] returns
    [None] it adds nothing to that run and returns
    [Connection failed; cannot retrieve interface brief.].  In every run
    the steps are those of [send_config], and the only thing sent, at most
    once, is that command. *)
Theorem get_interface_brief_lifecycle
    (world : netmiko) (device : dict) (commands : list str) (t : trace) :
  (forall conn : handle,
     fst (Task4.connect_device world device t) = Return (Some conn) ->
     let opened :=
       t ++ [EvConnectHandler device (Return conn);
             EvEnable conn (Return tt)] in
     let command := py "show ip interface brief" in
     let sent := Netmiko.send_command world opened conn command in
     let closed :=
       disconnect world (opened ++ [EvSendCommand conn command sent]) conn in
     Task4.get_interface_brief world device t
     = (match closed with
        | Raise e' => Raise e'
        | Return _ =>
            match sent with
            | Return output => Return output
            | Raise e =>
                if isinstance_Exception e
                then Return (py "Error retrieving interface brief: "
                             ++ str_of_exception e)
                else Raise e
            end
        end,
        opened ++ [EvSendCommand conn command sent; EvDisconnect conn closed])
     /\ disconnects conn
          [ EvConnectHandler device (Return conn); EvEnable conn (Return tt);
            EvSendCommand conn command sent; EvDisconnect conn closed ]
        = 1%nat
     /\ left_open []
          [ EvConnectHandler device (Return conn); EvEnable conn (Return tt);
            EvSendCommand conn command sent; EvDisconnect conn closed ]
        = [])
  /\ (forall t1 : trace,
        Task4.connect_device world device t = (Return None, t1) ->
        Task4.get_interface_brief world device t
        = (Return (py "Connection failed; cannot retrieve interface brief."),
           t1))
  /\ (forall (e : exception) (t1 : trace),
        Task4.connect_device world device t = (Raise e, t1) ->
        Task4.get_interface_brief world device t = (Raise e, t1))
  /\ exists es es' : trace,
       snd (Task4.get_interface_brief world device t) = t ++ es
       /\ snd (Task4.send_config world device commands t) = t ++ es'
       /\ map step_of es = map step_of es'
       /\ (forall ev : event,
             In ev (sends es) ->
             exists conn r,
               ev = EvSendCommand conn (py "show ip interface brief") r)
       /\ (length (sends es) <= 1)%nat.
Proof.
  split; [|split; [|split]].
  - intros conn H opened command sent closed.
    destruct (Task4.connect_device world device t) as [r t1] eqn:Hc.
    simpl in H. subst r.
    destruct (connect_device_Some_inv world _ _ _ _ Hc) as (_ & _ & Ht1).
    fold opened in Ht1. subst t1.
    pose proof (get_interface_brief_opened world device t _ conn Hc) as Hs.
    cbv zeta in Hs. fold command in Hs. fold sent in Hs. fold closed in Hs.
    split; [exact Hs|].
    split; [unfold disconnects; simpl; now rewrite N.eqb_refl|].
    simpl. now rewrite N.eqb_refl.
  - intros t1 H. now apply get_interface_brief_not_opened.
  - intros e t1 H. now apply get_interface_brief_open_raised.
  - destruct (connect_device_cases world device t)
      as [(e & He & H1 & H) | [(e & He & H1 & H) | [(conn & e & He & H2 & H)
         | [(conn & e & He & H2 & H) | (conn & H)]]]].
    1, 3:
      rewrite (get_interface_brief_not_opened world device t _ H),
              (send_config_not_opened world device commands t _ H);
      eexists _, _; do 3 (split; [reflexivity|]);
      split; [intros ev [] | simpl; lia].
    1, 2:
      rewrite (get_interface_brief_open_raised world device t _ _ H),
              (send_config_open_raised world device commands t _ _ H);
      eexists _, _; do 3 (split; [reflexivity|]);
      split; [intros ev [] | simpl; lia].
    rewrite (get_interface_brief_opened world device t _ conn H),
            (send_config_opened world device commands t _ conn H).
    cbv zeta.
    eexists _, _.
    split; [simpl; rewrite <- app_assoc; reflexivity|].
    split; [simpl; rewrite <- app_assoc; reflexivity|].
    split; [reflexivity|].
    split; [|simpl; lia].
    intros ev [<- | []]. eauto.
Qed.

(** The theorem at the sample device whose sends fail. *)
Lemma get_interface_brief_lifecycle_example :
  Task4.get_interface_brief Examples.flaky Examples.R1_device []
  = (Return (py "Error retrieving interface brief: read timed out"),
     [ EvConnectHandler Examples.R1_device (Return 1);
       EvEnable 1 (Return tt);
       EvSendCommand 1 (py "show ip interface brief")
         (Raise (Raised true (py "read timed out")));
       EvDisconnect 1 (Return tt) ]).
Proof.
  exact (proj1 (proj1 (get_interface_brief_lifecycle
                         Examples.flaky Examples.R1_device [] [])
                  1 eq_refl)).
Defined.

(** C9 as stated fails: with an open session, the result is neither the
    output of the device nor an error text when the disconnect raises or
    the send is interrupted; against a host that cannot be reached no
    command is sent at all; and a session that was opened but refused the
    privileged mode is never closed. *)
Lemma get_interface_brief_not_always_text :
  fst (Task4.connect_device Examples.closing_fails Examples.R1_device [])
  = Return (Some 1)
  /\ fst (Task4.get_interface_brief Examples.closing_fails
            Examples.R1_device [])
     = Raise (Raised true (py "socket is closed"))
  /\ fst (Task4.connect_device Examples.interrupted Examples.R1_device [])
     = Return (Some 1)
  /\ fst (Task4.get_interface_brief Examples.interrupted
            Examples.R1_device [])
     = Raise (Raised false (py "KeyboardInterrupt"))
  /\ sends (snd (Task4.get_interface_brief Examples.unreachable
                   Examples.R1_device []))
     = []
  /\ ConnectHandler Examples.unprivileged [] Examples.R1_device = Return 1
  /\ disconnects 1 (snd (Task4.get_interface_brief Examples.unprivileged
                           Examples.R1_device []))
     = 0%nat
  /\ left_open [] (snd (Task4.get_interface_brief Examples.unprivileged
                           Examples.R1_device []))
     = [1].
Proof. repeat split; reflexivity. Qed.

(** A run of [get_interface_brief] against the answering sample device. *)
Lemma get_interface_brief_reachable_run :
  Task4.get_interface_brief Examples.reachable Examples.R1_device []
  = (Return (py "output of show ip interface brief"),
     [ EvConnectHandler Examples.R1_device (Return 1);
       EvEnable 1 (Return tt);
       EvSendCommand 1 (py "show ip interface brief")
         (Return (py "output of show ip interface brief"));
       EvDisconnect 1 (Return tt) ]).
Proof. reflexivity. Qed.

End SessionClaims.

(** ** The connection parameters *)
Section DescriptorClaims.
Import Python Netmiko Spec.

(** C4: for a record that has the keys [Management IP], [Username] and
    [Password], [get_conn_info] returns a dictionary with [device_type]
    equal to [cisco_ios], [host] equal to the management address and
    [secret] (like [password]) equal to the password, and leaves the record
    as it was. *)
Theorem get_conn_info_descriptor
    (dev_data : dict) (address user password : str) :
  dev_data !! py "Management IP" = Some address ->
  dev_data !! py "Username" = Some user ->
  dev_data !! py "Password" = Some password ->
  exists d : dict,
    Task4.get_conn_info dev_data = (Return d, dev_data)
    /\ d !! py "device_type" = Some (py "cisco_ios")
    /\ d !! py "host" = Some address
    /\ d !! py "username" = Some user
    /\ d !! py "password" = Some password
    /\ d !! py "secret" = Some password.
Proof.
  intros Ha Hu Hp.
  unfold Task4.get_conn_info, bind, getitem, ret.
  rewrite Ha; cbv beta iota. rewrite Hu; cbv beta iota.
  rewrite Hp; cbv beta iota. rewrite Hp; cbv beta iota.
  eexists. split; [reflexivity|].
  unfold dict_of. cbn [list_to_map foldr fst snd uncurry].
  repeat split;
    repeat first
      [ rewrite lookup_insert_eq; reflexivity
      | rewrite lookup_insert_ne by (vm_compute; discriminate) ].
Qed.

(** The theorem at the sample record. *)
Lemma get_conn_info_descriptor_example :
  exists d : dict,
    Task4.get_conn_info Examples.R1 = (Return d, Examples.R1)
    /\ d !! py "device_type" = Some (py "cisco_ios")
    /\ d !! py "host" = Some (py "192.0.2.1")
    /\ d !! py "username" = Some (py "admin")
    /\ d !! py "password" = Some (py "cisco")
    /\ d !! py "secret" = Some (py "cisco").
Proof.
  exact (get_conn_info_descriptor Examples.R1
           (py "192.0.2.1") (py "admin") (py "cisco")
           eq_refl eq_refl eq_refl).
Defined.

(** C7: for a record that lacks one of the keys [Management IP], [Username]
    and [Password], [get_conn_info] returns no dictionary: it raises the
    missing-key error of the language, [KeyError], for the first of these
    keys that is absent; without [Management IP] that key is
    [Management IP]. *)
Theorem get_conn_info_missing_key (dev_data : dict) :
  dev_data !! py "Management IP" = None
  \/ dev_data !! py "Username" = None
  \/ dev_data !! py "Password" = None ->
  exists key : str,
    Task4.get_conn_info dev_data = (Raise (KeyError key), dev_data)
    /\ dev_data !! key = None
    /\ In key [py "Management IP"; py "Username"; py "Password"]
    /\ (dev_data !! py "Management IP" = None -> key = py "Management IP").
Proof.
  intros H. unfold Task4.get_conn_info, bind, getitem, ret.
  destruct (dev_data !! py "Management IP") as [a|] eqn:Ha; cbv beta iota.
  - destruct (dev_data !! py "Username") as [u|] eqn:Hu; cbv beta iota.
    + destruct (dev_data !! py "Password") as [p|] eqn:Hp; cbv beta iota.
      * destruct H as [H | [H | H]]; discriminate H.
      * exists (py "Password").
        repeat split; [assumption | simpl; tauto | intros; discriminate].
    + exists (py "Username").
      repeat split; [assumption | simpl; tauto | intros; discriminate].
  - exists (py "Management IP").
    repeat split; [assumption | simpl; tauto].
Qed.

(** The theorem at the sample record without its management address. *)
Lemma get_conn_info_missing_key_example :
  exists key : str,
    Task4.get_conn_info Examples.R1_without_address
    = (Raise (KeyError key), Examples.R1_without_address)
    /\ Examples.R1_without_address !! key = None
    /\ In key [py "Management IP"; py "Username"; py "Password"]
    /\ (Examples.R1_without_address !! py "Management IP" = None ->
        key = py "Management IP").
Proof.
  exact (get_conn_info_missing_key Examples.R1_without_address
           (or_introl eq_refl)).
Defined.

End DescriptorClaims.

(** ** The skeleton against the completed tool *)
Section SkeletonClaims.
Import Python Netmiko InventoryTool Spec.









(** The command line of the completed tool against the answering sample
    device, and the command line of the skeleton on the same input. *)
Lemma cli_main_sample_runs :
  Task4.cli_main Examples.reachable Examples.inventory_with_R1
    (py "R1") (Some (py "show version")) None []
  = (Return tt,
     [ EvConnectHandler Examples.R1_device (Return 1);
       EvEnable 1 (Return tt);
       EvSendCommand 1 (py "show version")
         (Return (py "output of show version"));
       EvPrint (py "Output from R1:");
       EvPrint (py "output of show version");
       EvDisconnect 1 (Return tt) ])
  /\ Skeleton.cli_main Examples.reachable Examples.inventory_with_R1
       (py "R1") (Some (py "show version")) None []
     = (Return tt, [ EvPrint (py "Failed to connect to R1") ]).
Proof. split; vm_compute; reflexivity. Qed.

End SkeletonClaims.

(** * Further properties of the code *)

(** ** The connection parameters depend on three fields only *)
Section DescriptorFacts.
Import Python Netmiko Spec.

(** X1: [get_conn_info] reads the management address, the user name and the
    password and nothing else: two records that agree on these three keys
    (present or absent) give the same result, the same dictionary or the
    same [KeyError]; and a returned dictionary has no other keys than
    [device_type], [host], [username], [password] and [secret]. *)
Theorem get_conn_info_reads_three_fields (d1 d2 : dict) :
  d1 !! py "Management IP" = d2 !! py "Management IP" ->
  d1 !! py "Username" = d2 !! py "Username" ->
  d1 !! py "Password" = d2 !! py "Password" ->
  fst (Task4.get_conn_info d1) = fst (Task4.get_conn_info d2)
  /\ forall out : dict,
       fst (Task4.get_conn_info d1) = Return out ->
       forall key : str,
         is_Some (out !! key) ->
         In key [ py "device_type"; py "host"; py "username";
                  py "password"; py "secret" ].
Proof.
  intros Ha Hu Hp.
  unfold Task4.get_conn_info, bind, getitem, ret.
  rewrite <- Ha.
  destruct (d1 !! py "Management IP") as [a|]; cbv beta iota;
    [|split; [reflexivity | intros out H; discriminate H]].
  rewrite <- Hu.
  destruct (d1 !! py "Username") as [u|]; cbv beta iota;
    [|split; [reflexivity | intros out H; discriminate H]].
  rewrite <- Hp.
  destruct (d1 !! py "Password") as [p|] eqn:E1; cbv beta iota;
    [|split; [reflexivity | intros out H; discriminate H]].
  rewrite <- Hp, E1; cbv beta iota.
  split; [reflexivity|].
  intros out H. cbn [fst] in H. injection H as <-.
  intros key [v Hv]. unfold dict_of in Hv.
  cbn [list_to_map foldr fst snd uncurry] in Hv.
  repeat (apply lookup_insert_Some in Hv as [[<- _] | [_ Hv]];
          [simpl; tauto|]).
  rewrite lookup_empty in Hv. discriminate Hv.
Qed.

(** The theorem at the sample record and its annotated copy. *)
Lemma get_conn_info_reads_three_fields_example :
  fst (Task4.get_conn_info Examples.R1)
  = fst (Task4.get_conn_info Examples.R1_annotated)
  /\ forall out : dict,
       fst (Task4.get_conn_info Examples.R1) = Return out ->
       forall key : str,
         is_Some (out !! key) ->
         In key [ py "device_type"; py "host"; py "username";
                  py "password"; py "secret" ].
Proof.
  exact (get_conn_info_reads_three_fields
           Examples.R1 Examples.R1_annotated eq_refl eq_refl eq_refl).
Defined.

End DescriptorFacts.

(** ** The frame of a rendered stanza *)
Section RenderFrame.
Import Python Spec.

Lemma splitlines_from_linefeed line s :
  splitlines_from line (10 :: s) = rev line :: splitlines_from [] s.
Proof. destruct s; reflexivity. Qed.

Lemma splitlines_from_prefix p : forall line s,
  one_line p = true ->
  splitlines_from line (p ++ s) = splitlines_from (rev p ++ line) s.
Proof.
  induction p as [|c p IH]; intros line s H; [reflexivity|].
  simpl in H. apply andb_true_iff in H as [Hc Hp].
  apply negb_true_iff in Hc.
  change ((c :: p) ++ s) with (c :: (p ++ s)).
  cbn [splitlines_from]. rewrite Hc, (IH _ _ Hp).
  simpl. now rewrite <- app_assoc.
Qed.

(** Whatever precedes the last line feed, the text splits into a first line
    that continues the current one, some more lines, and the last line. *)
Lemma splitlines_from_frame (l3 : str) :
  one_line l3 = true -> l3 <> [] ->
  forall (n : nat) (x line : str),
    (length x <= n)%nat ->
    exists seg mid,
      splitlines_from line (x ++ 10 :: l3)
      = (rev line ++ seg) :: mid ++ [l3].
Proof.
  intros H3 Hne.
  assert (splitlines_from [] l3 = [l3]) as Hlast.
  { rewrite (splitlines_from_last [] l3 H3). simpl.
    destruct l3; [now destruct Hne | reflexivity]. }
  induction n as [|n IH]; intros x line Hn.
  - destruct x; [|simpl in Hn; lia].
    simpl app. rewrite splitlines_from_linefeed, Hlast.
    exists [], []. now rewrite app_nil_r.
  - destruct x as [|c x].
    + simpl app. rewrite splitlines_from_linefeed, Hlast.
      exists [], []. now rewrite app_nil_r.
    + simpl in Hn.
      change ((c :: x) ++ 10 :: l3) with (c :: (x ++ 10 :: l3)).
      cbn [splitlines_from].
      destruct (islinebreak c) eqn:Hc.
      * exists [].
        destruct x as [|c' x].
        { simpl app. cbv beta iota.
          destruct ((c =? 13) && (10 =? 10)).
          - rewrite Hlast. exists []. now rewrite app_nil_r.
          - rewrite splitlines_from_linefeed, Hlast.
            exists [[]]. now rewrite app_nil_r. }
        { change ((c' :: x) ++ 10 :: l3) with (c' :: (x ++ 10 :: l3)).
          cbv beta iota. simpl in Hn.
          destruct ((c =? 13) && (c' =? 10)).
          - destruct (IH x [] ltac:(lia)) as (seg & mid & ->).
            exists (seg :: mid). now rewrite app_nil_r.
          - change (c' :: (x ++ 10 :: l3)) with ((c' :: x) ++ 10 :: l3).
            destruct (IH (c' :: x) [] ltac:(simpl; lia)) as (seg & mid & ->).
            exists (seg :: mid). now rewrite app_nil_r. }
      * destruct (IH x (c :: line) ltac:(lia)) as (seg & mid & ->).
        exists (c :: seg), mid. simpl. now rewrite <- app_assoc.
Qed.

Lemma rstrip_visible_prefix p s :
  forallb (fun c => negb (isspace c)) p = true ->
  rstrip (p ++ s) = p ++ rstrip s.
Proof.
  induction p as [|c p IH]; intros H; [reflexivity|].
  simpl in H. apply andb_true_iff in H as [Hc Hp].
  apply negb_true_iff in Hc.
  change ((c :: p) ++ s) with (c :: (p ++ s)).
  rewrite rstrip_cons by exact Hc. now rewrite IH.
Qed.

Lemma startswith_app p s : startswith p (p ++ s) = true.
Proof.
  induction p as [|c p IH]; [now destruct s|].
  simpl. now rewrite N.eqb_refl.
Qed.

(** The lines kept from a text that starts with a line feed and
    [interface ] and ends with a line feed and a last line. *)
Lemma kept_lines_frame (x l3 : str) :
  one_line l3 = true -> l3 <> [] -> strip l3 = l3 ->
  exists first middle,
    map strip
      (List.filter (fun line => truthy (strip line))
         (splitlines (10 :: (py "interface " ++ (x ++ 10 :: l3)))))
    = first :: middle ++ [l3]
    /\ startswith (py "interface") first = true.
Proof.
  intros H3 Hne Hs. unfold splitlines.
  rewrite splitlines_from_linefeed.
  rewrite (splitlines_from_prefix (py "interface ") [] _ eq_refl).
  destruct (splitlines_from_frame l3 H3 Hne (length x) x
              (rev (py "interface ") ++ []) (le_n _)) as (seg & mid & ->).
  rewrite app_nil_r, rev_involutive.
  assert (strip (py "interface " ++ seg)
          = py "interface" ++ rstrip (32 :: seg)) as Hfirst.
  { change (py "interface " ++ seg)
      with (105 :: (py "nterface" ++ 32 :: seg)).
    rewrite strip_cons by reflexivity.
    rewrite rstrip_visible_prefix by reflexivity. reflexivity. }
  cbn [List.filter rev app]. change (strip []) with (@nil N).
  cbn [truthy]. rewrite Hfirst.
  change (truthy (py "interface" ++ rstrip (32 :: seg))) with true.
  cbv beta iota. rewrite List.filter_app. cbn [List.filter].
  rewrite Hs. destruct l3 as [|c3 l3]; [now destruct Hne|].
  cbn [truthy]. cbv beta iota.
  cbn [map]. rewrite Hfirst, map_app. cbn [map]. rewrite Hs.
  eexists _, _. split; [reflexivity|]. apply startswith_app.
Qed.

(** X2: For all arguments the stanza of [render_interface_config] opens with a
    line that starts with [interface] and closes with [no shutdown] (action
    [create]) or [shutdown] (any other action), and none of its lines is
    empty, unstripped or holds a line boundary. *)
Theorem render_interface_config_frame
    (action interface ip_address subnet_mask : str) :
  (exists first middle,
     Task4.render_interface_config action interface ip_address subnet_mask
     = first :: middle
       ++ [ if decide (action = py "create")
            then py "no shutdown" else py "shutdown" ]
     /\ startswith (py "interface") first = true)
  /\ Forall (fun line => trimmed_line line /\ one_line line = true)
       (Task4.render_interface_config
          action interface ip_address subnet_mask).
Proof.
  split.
  - unfold Task4.render_interface_config.
    destruct (decide (action = py "create")) as [_|_].
    + rewrite rendered_create.
      replace ((10 :: py "interface ") ++ interface
               ++ (10 :: py "ip address ") ++ ip_address ++ py " "
               ++ subnet_mask ++ 10 :: py "no shutdown")
        with (10 :: (py "interface "
                     ++ ((interface ++ (10 :: py "ip address ")
                          ++ ip_address ++ py " " ++ subnet_mask)
                         ++ 10 :: py "no shutdown")))
        by (rewrite <- !app_assoc; reflexivity).
      apply kept_lines_frame; [reflexivity | discriminate | reflexivity].
    + rewrite rendered_delete.
      replace ((10 :: py "interface ") ++ interface
               ++ (10 :: py "no ip address") ++ 10 :: py "shutdown")
        with (10 :: (py "interface "
                     ++ ((interface ++ (10 :: py "no ip address"))
                         ++ 10 :: py "shutdown")))
        by (rewrite <- !app_assoc; reflexivity).
      apply kept_lines_frame; [reflexivity | discriminate | reflexivity].
  - apply List.Forall_and; [apply render_interface_config_trimmed|].
    unfold Task4.render_interface_config.
    destruct (decide (action = py "create"));
      apply kept_lines_one_line;
      apply (splitlines_from_one_line _ _ [] (le_n _) eq_refl).
Qed.

End RenderFrame.

(** ** A refused elevation *)
Section ElevationFacts.
Import Python Netmiko Spec.

(** X3: When [ConnectHandler] returns a connection and [enable] then raises an
    exception, the run of [connect_device] is these two calls and the
    printed report; it returns [None] without calling [disconnect], so the
    opened session stays open, and the callers [send_config] and
    [get_interface_brief], which only see [None], return their
    connection-failed texts with the same run and leave it open too. *)
Theorem elevation_failure_leaks_session
    (world : netmiko) (device : dict) (commands : list str) (t : trace)
    (conn : handle) (e : exception) :
  ConnectHandler world t device = Return conn ->
  enable world (t ++ [EvConnectHandler device (Return conn)]) conn = Raise e ->
  isinstance_Exception e = true ->
  let es :=
    [ EvConnectHandler device (Return conn);
      EvEnable conn (Raise e);
      EvPrint (py "Error connecting to device "
               ++ format_optional (device !! py "host")
               ++ py ": " ++ str_of_exception e) ] in
  Task4.connect_device world device t = (Return None, t ++ es)
  /\ disconnects conn es = 0%nat
  /\ left_open [] es = [conn]
  /\ Task4.send_config world device commands t
     = (Return (py "Connection failed; configuration not sent."), t ++ es)
  /\ Task4.get_interface_brief world device t
     = (Return (py "Connection failed; cannot retrieve interface brief."),
        t ++ es).
Proof.
  intros H1 H2 He es.
  pose proof (connect_device_enable_raises world device t conn e H1 H2) as Hc.
  rewrite He in Hc. fold es in Hc.
  split; [exact Hc|].
  split; [reflexivity|]. split; [reflexivity|].
  split.
  - exact (send_config_not_opened world device commands t _ Hc).
  - exact (get_interface_brief_not_opened world device t _ Hc).
Qed.

(** The theorem at the sample device that refuses the privileged mode. *)
Lemma elevation_failure_leaks_session_example :
  Task4.connect_device Examples.unprivileged Examples.R1_device []
  = (Return None,
     [ EvConnectHandler Examples.R1_device (Return 1);
       EvEnable 1 (Raise (Raised true (py "failed to enter enable mode")));
       EvPrint
         (py "Error connecting to device 192.0.2.1: failed to enter enable mode") ])
  /\ left_open []
       [ EvConnectHandler Examples.R1_device (Return 1);
         EvEnable 1 (Raise (Raised true (py "failed to enter enable mode")));
         EvPrint
           (py "Error connecting to device 192.0.2.1: failed to enter enable mode") ]
     = [1].
Proof.
  pose proof (elevation_failure_leaks_session
                Examples.unprivileged Examples.R1_device
                [py "interface GigabitEthernet0/1"; py "no shutdown"] [] 1
                (Raised true (py "failed to enter enable mode"))
                eq_refl eq_refl eq_refl) as (H1 & _ & H2 & _).
  split; [exact H1 | exact H2].
Defined.

End ElevationFacts.

(** ** The command line *)
Section CommandLineFacts.
Import Python Netmiko InventoryTool Spec.

(** X5: [cli_main] stops before any call of the library, after printing one
    line, when the inventory cannot be read ([Error: <cause>]), when the
    device is absent from it or its record is empty
    ([Device <name> not found in inventory]), and when the record lacks a
    required key: [Error: 'Management IP'] if that key is absent, else
    [Error: 'Username'] if that one is, else [Error: 'Password']. *)
Theorem cli_main_stops_before_session
    (world : netmiko) (tool : inventory_tool)
    (device_name : str) (command config : option str) (t : trace) :
  (forall e : exception,
     read_inventory tool (py "inventory.csv") = Raise e ->
     isinstance_Exception e = true ->
     Task4.cli_main world tool device_name command config t
     = (Return tt, t ++ [EvPrint (py "Error: " ++ str_of_exception e)]))
  /\ (forall (inventory : list dict) (device_data : option dict),
        read_inventory tool (py "inventory.csv") = Return inventory ->
        get_device_data tool inventory device_name = Return device_data ->
        (device_data = None \/ device_data = Some ∅) ->
        Task4.cli_main world tool device_name command config t
        = (Return tt,
           t ++ [EvPrint (py "Device " ++ device_name
                          ++ py " not found in inventory")]))
  /\ (forall (inventory : list dict) (record : dict),
        read_inventory tool (py "inventory.csv") = Return inventory ->
        get_device_data tool inventory device_name = Return (Some record) ->
        record <> ∅ ->
        (record !! py "Management IP" = None ->
         Task4.cli_main world tool device_name command config t
         = (Return tt, t ++ [EvPrint (py "Error: 'Management IP'")]))
        /\ (is_Some (record !! py "Management IP") ->
            record !! py "Username" = None ->
            Task4.cli_main world tool device_name command config t
            = (Return tt, t ++ [EvPrint (py "Error: 'Username'")]))
        /\ (is_Some (record !! py "Management IP") ->
            is_Some (record !! py "Username") ->
            record !! py "Password" = None ->
            Task4.cli_main world tool device_name command config t
            = (Return tt, t ++ [EvPrint (py "Error: 'Password'")]))).
Proof.
  split; [|split].
  - intros e Hr He.
    unfold Task4.cli_main, try_except, bind, ask, echo, print.
    rewrite Hr; cbv beta iota. now rewrite He.
  - intros inventory device_data Hr Hg Hd.
    unfold Task4.cli_main, try_except, bind, ask, echo, print.
    rewrite Hr; cbv beta iota. rewrite Hg; cbv beta iota.
    destruct Hd as [-> | ->]; reflexivity.
  - intros inventory record Hr Hg Hne.
    assert (forall key : str,
              fst (Task4.get_conn_info record) = Raise (KeyError key) ->
              Task4.cli_main world tool device_name command config t
              = (Return tt,
                 t ++ [EvPrint (py "Error: '" ++ key ++ py "'")])) as Hcli.
    { intros key Hraise.
      unfold Task4.cli_main, try_except, bind, ask, reading, echo, print.
      rewrite Hr; cbv beta iota. rewrite Hg; cbv beta iota.
      unfold true_dict. destruct (decide (record = ∅)) as [E|_];
        [now destruct Hne|].
      rewrite Hraise. cbv beta iota. reflexivity. }
    split; [|split].
    + intros Ha. apply (Hcli (py "Management IP")).
      unfold Task4.get_conn_info, bind, getitem, ret. now rewrite Ha.
    + intros [a Ha] Hu. apply (Hcli (py "Username")).
      unfold Task4.get_conn_info, bind, getitem, ret.
      rewrite Ha; cbv beta iota. now rewrite Hu.
    + intros [a Ha] [u Hu] Hp. apply (Hcli (py "Password")).
      unfold Task4.get_conn_info, bind, getitem, ret.
      rewrite Ha; cbv beta iota. rewrite Hu; cbv beta iota. now rewrite Hp.
Qed.

(** The third case at the sample inventory whose record of R1 has no
    management address. *)
Lemma cli_main_stops_before_session_example :
  Task4.cli_main Examples.reachable Examples.inventory_without_address
    (py "R1") (Some (py "show version")) None []
  = (Return tt, [] ++ [EvPrint (py "Error: 'Management IP'")]).
Proof.
  refine (proj1 (proj2 (proj2 (cli_main_stops_before_session
                                 Examples.reachable
                                 Examples.inventory_without_address
                                 (py "R1") (Some (py "show version")) None []))
                   [Examples.R1_without_address] Examples.R1_without_address
                   eq_refl eq_refl _)
            eq_refl).
  intros H. apply (f_equal (fun d : dict => d !! py "Name")) in H.
  vm_compute in H. discriminate H.
Defined.

(** X6: An option given as the empty string counts as not given, and a command
    takes precedence: with a command the configuration option is ignored. *)
Theorem cli_main_option_precedence
    (world : netmiko) (tool : inventory_tool)
    (device_name text : str) (command config : option str) (t : trace) :
  true_str command = Some text ->
  (forall config' : option str,
     Task4.cli_main world tool device_name command config' t
     = Task4.cli_main world tool device_name command config t)
  /\ Task4.cli_main world tool device_name (Some []) config t
     = Task4.cli_main world tool device_name None config t
  /\ Task4.cli_main world tool device_name None (Some []) t
     = Task4.cli_main world tool device_name None None t.
Proof.
  intros Hc. split; [|split; reflexivity].
  intros config'.
  unfold Task4.cli_main, try_except, bind, ask, reading.
  destruct (read_inventory tool (py "inventory.csv")) as [inventory|e];
    [|reflexivity].
  destruct (get_device_data tool inventory device_name) as [device_data|e];
    [|reflexivity].
  destruct (true_dict device_data) as [record|]; [|reflexivity].
  destruct (fst (Task4.get_conn_info record)) as [conn_info|e];
    [|reflexivity].
  rewrite Hc. reflexivity.
Qed.

(** The theorem at the sample device, with both options given. *)
Lemma cli_main_option_precedence_example :
  (forall config' : option str,
     Task4.cli_main Examples.reachable Examples.inventory_with_R1
       (py "R1") (Some (py "show version")) config' []
     = Task4.cli_main Examples.reachable Examples.inventory_with_R1
         (py "R1") (Some (py "show version"))
         (Some (py "interface GigabitEthernet0/1,shutdown")) [])
  /\ Task4.cli_main Examples.reachable Examples.inventory_with_R1
       (py "R1") (Some [])
       (Some (py "interface GigabitEthernet0/1,shutdown")) []
     = Task4.cli_main Examples.reachable Examples.inventory_with_R1
         (py "R1") None
         (Some (py "interface GigabitEthernet0/1,shutdown")) []
  /\ Task4.cli_main Examples.reachable Examples.inventory_with_R1
       (py "R1") None (Some []) []
     = Task4.cli_main Examples.reachable Examples.inventory_with_R1
         (py "R1") None None [].
Proof.
  exact (cli_main_option_precedence
           Examples.reachable Examples.inventory_with_R1
           (py "R1") (py "show version") (Some (py "show version"))
           (Some (py "interface GigabitEthernet0/1,shutdown")) [] eq_refl).
Defined.

Lemma R1_not_empty : Examples.R1 <> ∅.
Proof.
  intros H. apply (f_equal (fun d : dict => d !! py "Name")) in H.
  vm_compute in H. discriminate H.
Qed.

(** X7: With a command, [cli_main] opens a session through [connect_device];
    without a connection it prints [Failed to connect to <name>] and sends
    nothing; with one it sends the command once, and then either prints the
    output and disconnects, or, when the send raises an exception, prints
    [Error: <cause>] and returns without disconnecting, so that the session
    stays open. *)
Theorem cli_main_command_branch
    (world : netmiko) (tool : inventory_tool)
    (device_name text : str) (command config : option str) (t : trace)
    (inventory : list dict) (record conn_info : dict) :
  read_inventory tool (py "inventory.csv") = Return inventory ->
  get_device_data tool inventory device_name = Return (Some record) ->
  record <> ∅ ->
  fst (Task4.get_conn_info record) = Return conn_info ->
  true_str command = Some text ->
  (forall t1 : trace,
     Task4.connect_device world conn_info t = (Return None, t1) ->
     Task4.cli_main world tool device_name command config t
     = (Return tt, t1 ++ [EvPrint (py "Failed to connect to " ++ device_name)]))
  /\ (forall conn : handle,
        fst (Task4.connect_device world conn_info t) = Return (Some conn) ->
        let opened := [ EvConnectHandler conn_info (Return conn);
                        EvEnable conn (Return tt) ] in
        (forall output : str,
           Netmiko.send_command world (t ++ opened) conn text
           = Return output ->
           forall es : trace,
             es = opened
                  ++ [ EvSendCommand conn text (Return output);
                       EvPrint (py "Output from " ++ device_name ++ py ":");
                       EvPrint output ] ->
             disconnect world (t ++ es) conn = Return tt ->
             Task4.cli_main world tool device_name command config t
             = (Return tt, t ++ es ++ [EvDisconnect conn (Return tt)])
             /\ left_open [] (es ++ [EvDisconnect conn (Return tt)]) = [])
        /\ (forall e : exception,
              Netmiko.send_command world (t ++ opened) conn text = Raise e ->
              isinstance_Exception e = true ->
              forall es : trace,
                es = opened
                     ++ [ EvSendCommand conn text (Raise e);
                          EvPrint (py "Error: " ++ str_of_exception e) ] ->
                Task4.cli_main world tool device_name command config t
                = (Return tt, t ++ es)
                /\ disconnects conn es = 0%nat
                /\ left_open [] es = [conn])).
Proof.
  intros Hr Hg Hne Hi Hc.
  assert (Task4.cli_main world tool device_name command config t
          = try_except
              (bind (Task4.connect_device world conn_info)
                 (fun connection =>
                    match connection with
                    | None =>
                        echo (Some (py "Failed to connect to "
                                    ++ device_name))
                    | Some conn =>
                        bind (Task4.send_command world connection text)
                          (fun output =>
                             bind (echo (Some (py "Output from "
                                               ++ device_name ++ py ":")))
                               (fun _ =>
                                  bind (echo (Some output))
                                    (fun _ =>
                                       bind (call
                                               (fun t =>
                                                  disconnect world t conn)
                                               (EvDisconnect conn))
                                         (fun _ => ret tt))))
                    end))
              (fun e => echo (Some (py "Error: " ++ str_of_exception e)))
              t) as Hcli.
  { unfold Task4.cli_main, try_except, bind at 1 2 3, ask, reading.
    rewrite Hr; cbv beta iota. rewrite Hg; cbv beta iota.
    unfold true_dict. destruct (decide (record = ∅)) as [E|_];
      [now destruct Hne|].
    rewrite Hi, Hc. reflexivity. }
  rewrite Hcli. clear Hcli. split.
  - intros t1 H. unfold try_except, bind, echo, print. now rewrite H.
  - intros conn Hconn opened.
    destruct (Task4.connect_device world conn_info t) as [r t1] eqn:Hd.
    simpl in Hconn. subst r.
    destruct (connect_device_Some_inv world _ _ _ _ Hd) as (_ & _ & Ht1).
    fold opened in Ht1. subst t1.
    split.
    + intros output Hs es -> Hdis.
      unfold Task4.send_command, try_except, bind, echo, print, call, ret.
      rewrite Hd, Hs. cbv beta iota. cbn [from_option id].
      rewrite <- !app_assoc in *. cbn [app] in *.
      rewrite Hdis. split; [reflexivity|].
      subst opened. simpl. now rewrite N.eqb_refl.
    + intros e Hs He es ->.
      unfold Task4.send_command, try_except, bind, echo, print, call, ret.
      rewrite Hd, Hs. cbv beta iota. rewrite He. cbn [from_option id].
      rewrite <- !app_assoc. cbn [app].
      split; [reflexivity|]. subst opened. split; reflexivity.
Qed.

(** The theorem at the sample device whose sends fail: the command line
    reports the error and the session stays open. *)
Lemma cli_main_command_branch_example :
  Task4.cli_main Examples.flaky Examples.inventory_with_R1
    (py "R1") (Some (py "show version")) None []
  = (Return tt,
     [ EvConnectHandler Examples.R1_device (Return 1);
       EvEnable 1 (Return tt);
       EvSendCommand 1 (py "show version")
         (Raise (Raised true (py "read timed out")));
       EvPrint (py "Error: read timed out") ])
  /\ left_open []
       [ EvConnectHandler Examples.R1_device (Return 1);
         EvEnable 1 (Return tt);
         EvSendCommand 1 (py "show version")
           (Raise (Raised true (py "read timed out")));
         EvPrint (py "Error: read timed out") ]
     = [1].
Proof.
  pose proof (cli_main_command_branch
                Examples.flaky Examples.inventory_with_R1
                (py "R1") (py "show version") (Some (py "show version"))
                None [] [Examples.R1] Examples.R1 Examples.R1_device
                eq_refl eq_refl R1_not_empty eq_refl eq_refl) as [_ H].
  destruct (H 1 eq_refl) as [_ H2].
  destruct (H2 (Raised true (py "read timed out")) eq_refl eq_refl _ eq_refl)
    as (H3 & _ & H4).
  split; [exact H3 | exact H4].
Defined.

Lemma split_from_not_empty sep s : forall cur, split_from sep cur s <> [].
Proof.
  induction s as [|c s IH]; intros cur; simpl; [discriminate|].
  destruct (c =? sep); [discriminate | apply IH].
Qed.

(** Joining the fields with the separator gives the text back. *)
Lemma join_split_from sep s : forall cur,
  join [sep] (split_from sep cur s) = rev cur ++ s.
Proof.
  induction s as [|c s IH]; intros cur; simpl.
  - now rewrite app_nil_r.
  - destruct (c =? sep) eqn:E.
    + apply N.eqb_eq in E. subst c.
      pose proof (split_from_not_empty sep s []) as Hne.
      specialize (IH []).
      destruct (split_from sep [] s) as [|x xs]; [now destruct Hne|].
      change (join [sep] (rev cur :: x :: xs))
        with (rev cur ++ [sep] ++ join [sep] (x :: xs)).
      rewrite IH. reflexivity.
    + rewrite IH. simpl. now rewrite <- app_assoc.
Qed.

(** No field holds the separator. *)
Lemma split_from_fields sep s : forall cur,
  forallb (fun c => negb (c =? sep)) cur = true ->
  Forall (fun x => forallb (fun c => negb (c =? sep)) x = true)
    (split_from sep cur s).
Proof.
  assert (forall l, forallb (fun c => negb (c =? sep)) l = true ->
                    forallb (fun c => negb (c =? sep)) (rev l) = true) as Hrev.
  { intros l H. apply forallb_forall. intros x Hx.
    apply In_rev in Hx.
    exact (proj1 (forallb_forall _ l) H x Hx). }
  induction s as [|c s IH]; intros cur Hcur; simpl.
  - constructor; [now apply Hrev | constructor].
  - destruct (c =? sep) eqn:E.
    + constructor; [now apply Hrev | now apply IH].
    + apply IH. simpl. now rewrite E.
Qed.

(** X8: With a configuration and no command, [cli_main] hands the whole work to
    [send_config], with the option text split at its commas, and prints a
    heading and what [send_config] returns (or [Error: <cause>] when it
    raises an exception).  The batch is never empty, none of its commands
    holds a comma, and joined by commas they are the option text again. *)
Theorem cli_main_config_branch
    (world : netmiko) (tool : inventory_tool)
    (device_name text : str) (command config : option str) (t : trace)
    (inventory : list dict) (record conn_info : dict) :
  read_inventory tool (py "inventory.csv") = Return inventory ->
  get_device_data tool inventory device_name = Return (Some record) ->
  record <> ∅ ->
  fst (Task4.get_conn_info record) = Return conn_info ->
  true_str command = None ->
  true_str config = Some text ->
  Task4.cli_main world tool device_name command config t
  = match Task4.send_config world conn_info (split text 44) t with
    | (Return output, t1) =>
        (Return tt,
         t1 ++ [ EvPrint (py "Configuration output from " ++ device_name
                          ++ py ":");
                 EvPrint output ])
    | (Raise e, t1) =>
        if isinstance_Exception e
        then (Return tt, t1 ++ [EvPrint (py "Error: " ++ str_of_exception e)])
        else (Raise e, t1)
    end
  /\ split text 44 <> []
  /\ Forall (fun command => forallb (fun c => negb (c =? 44)) command = true)
       (split text 44)
  /\ join [44] (split text 44) = text.
Proof.
  intros Hr Hg Hne Hi Hc Hf. split; [|split; [|split]].
  - unfold Task4.cli_main, try_except, bind at 1 2 3, ask, reading.
    rewrite Hr; cbv beta iota. rewrite Hg; cbv beta iota.
    unfold true_dict. destruct (decide (record = ∅)) as [E|_];
      [now destruct Hne|].
    rewrite Hi, Hc, Hf. cbv zeta.
    unfold bind, echo, print.
    destruct (Task4.send_config world conn_info (split text 44) t)
      as [[output|e] t1]; [|reflexivity].
    cbn [from_option id]. now rewrite <- app_assoc.
  - apply split_from_not_empty.
  - now apply split_from_fields.
  - apply (join_split_from 44 text []).
Qed.

(** The theorem at the answering sample device. *)
Lemma cli_main_config_branch_example :
  Task4.cli_main Examples.reachable Examples.inventory_with_R1
    (py "R1") None (Some (py "interface GigabitEthernet0/1,no shutdown")) []
  = (Return tt,
     [ EvConnectHandler Examples.R1_device (Return 1);
       EvEnable 1 (Return tt);
       EvSendConfigSet 1
         [py "interface GigabitEthernet0/1"; py "no shutdown"]
         (Return (py "configured"));
       EvDisconnect 1 (Return tt);
       EvPrint (py "Configuration output from R1:");
       EvPrint (py "configured") ]).
Proof.
  exact (proj1 (cli_main_config_branch
                  Examples.reachable Examples.inventory_with_R1
                  (py "R1") (py "interface GigabitEthernet0/1,no shutdown")
                  None
                  (Some (py "interface GigabitEthernet0/1,no shutdown")) []
                  [Examples.R1] Examples.R1 Examples.R1_device
                  eq_refl eq_refl R1_not_empty eq_refl eq_refl eq_refl)).
Defined.

End CommandLineFacts.

(** ** The demonstration [main] and its table of interfaces *)
Section MainFacts.
Import Python Netmiko InventoryTool Spec.

Lemma islinebreak_isspace c : islinebreak c = true -> isspace c = true.
Proof.
  unfold islinebreak, isspace. intros H.
  repeat rewrite orb_true_iff in *. repeat rewrite andb_true_iff in *.
  rewrite ?N.leb_le, ?N.eqb_eq in *. lia.
Qed.

Lemma split_whitespace_from_field fld : forall cur rest,
  forallb (fun c => negb (isspace c)) fld = true ->
  split_whitespace_from cur (fld ++ rest)
  = split_whitespace_from (rev fld ++ cur) rest.
Proof.
  induction fld as [|c fld IH]; intros cur rest H; [reflexivity|].
  simpl in H. apply andb_true_iff in H as [Hc Hf].
  apply negb_true_iff in Hc.
  change ((c :: fld) ++ rest) with (c :: (fld ++ rest)).
  cbn [split_whitespace_from]. rewrite Hc, (IH _ _ Hf).
  simpl. now rewrite <- app_assoc.
Qed.

(** Splitting a row at its blanks gives its fields back. *)
Lemma split_whitespace_row (fields : list str) :
  forallb field fields = true ->
  split_whitespace (row fields) = fields.
Proof.
  unfold split_whitespace, row.
  induction fields as [|f fields IH]; intros H; [reflexivity|].
  simpl in H. apply andb_true_iff in H as [Hf Hfs].
  unfold field in Hf. apply andb_true_iff in Hf as [Hne Hvis].
  assert (forall rest, rev f ++ [] = [] -> rest = f :: rest) as Habs.
  { intros rest E. rewrite app_nil_r in E.
    apply (f_equal (@rev N)) in E. rewrite rev_involutive in E.
    subst f. discriminate Hne. }
  destruct fields as [|g fields].
  - cbn [join]. rewrite <- (app_nil_r f) at 1.
    rewrite (split_whitespace_from_field f [] [] Hvis).
    cbn [split_whitespace_from].
    destruct (rev f ++ []) eqn:E; [now apply Habs|].
    rewrite <- E, app_nil_r, rev_involutive. reflexivity.
  - change (join [32] (f :: g :: fields))
      with (f ++ 32 :: join [32] (g :: fields)).
    rewrite (split_whitespace_from_field f [] _ Hvis).
    cbn [split_whitespace_from]. change (isspace 32) with true.
    cbv beta iota. rewrite (IH Hfs).
    destruct (rev f ++ []) eqn:E; [now apply Habs|].
    rewrite <- E, app_nil_r, rev_involutive. reflexivity.
Qed.

Lemma row_one_line (fields : list str) :
  forallb field fields = true -> one_line (row fields) = true.
Proof.
  assert (forall f, field f = true -> one_line f = true) as Hfield.
  { intros f H. unfold field in H. apply andb_true_iff in H as [_ H].
    apply forallb_forall. intros c Hc.
    pose proof (proj1 (forallb_forall _ f) H c Hc) as Hs.
    apply negb_true_iff in Hs. apply negb_true_iff.
    destruct (islinebreak c) eqn:E; [|reflexivity].
    apply islinebreak_isspace in E. congruence. }
  unfold row. induction fields as [|f fields IH]; intros H; [reflexivity|].
  simpl in H. apply andb_true_iff in H as [Hf Hfs].
  destruct fields as [|g fields]; [now apply Hfield|].
  change (join [32] (f :: g :: fields))
    with (f ++ [32] ++ join [32] (g :: fields)).
  rewrite !one_line_app, (Hfield f Hf), (IH Hfs). reflexivity.
Qed.

Lemma omap_cons_eq {A B : Type} (f : A -> option B) (x : A) (l : list A) :
  omap f (x :: l)
  = match f x with Some y => y :: omap f l | None => omap f l end.
Proof. reflexivity. Qed.

(** What is kept of the lines of a text does not depend on an empty last
    line. *)
Lemma omap_splitlines_text_of {B : Type} (f : str -> option B)
    (lines : list str) :
  f [] = None ->
  forallb one_line lines = true ->
  omap f (splitlines (text_of lines)) = omap f lines.
Proof.
  intros Hf. unfold splitlines, text_of.
  induction lines as [|x lines IH]; intros H; [reflexivity|].
  simpl in H. apply andb_true_iff in H as [Hx Hl].
  destruct lines as [|y lines].
  - cbn [join]. rewrite (splitlines_from_last [] x Hx). simpl.
    destruct x; [now rewrite Hf | reflexivity].
  - change (join [10] (x :: y :: lines))
      with (x ++ 10 :: join [10] (y :: lines)).
    rewrite (splitlines_from_line [] x _ Hx). cbn [rev app].
    rewrite !(omap_cons_eq f x). now rewrite (IH Hl).
Qed.

Lemma omap_rest_of_text {B : Type} (f : str -> option B)
    (header : str) (lines : list str) :
  f [] = None ->
  one_line header = true ->
  forallb one_line lines = true ->
  omap f (drop 1 (splitlines (text_of (header :: lines)))) = omap f lines.
Proof.
  intros Hf Hh Hl. destruct lines as [|y lines].
  - unfold splitlines, text_of. cbn [join].
    rewrite (splitlines_from_last [] header Hh). simpl.
    destruct header; reflexivity.
  - unfold text_of.
    change (join [10] (header :: y :: lines))
      with (header ++ 10 :: join [10] (y :: lines)).
    unfold splitlines at 1.
    rewrite (splitlines_from_line [] header _ Hh).
    cbn [drop]. now apply omap_splitlines_text_of.
Qed.

(** A loop whose body prints at most one line. *)
Lemma for_each_prints {A : Type} (f : A -> option str)
    (body : A -> M trace unit) :
  (forall x t,
     body x t
     = (Return tt,
        t ++ match f x with Some line => [EvPrint line] | None => [] end)) ->
  forall xs t,
    for_each xs body t = (Return tt, t ++ map EvPrint (omap f xs)).
Proof.
  intros Hbody. induction xs as [|x xs IH]; intros t.
  - simpl. unfold ret. now rewrite app_nil_r.
  - cbn [for_each]. unfold bind. rewrite Hbody, IH.
    rewrite omap_cons_eq.
    destruct (f x); cbn [map]; rewrite <- app_assoc; reflexivity.
Qed.

(** Once the text of the device is there, [main] prints it and then one
    status line for every line but the first that has five fields. *)
Lemma main_after_brief
    (world : netmiko) (tool : inventory_tool) (t t1 : trace)
    (inventory : list dict) (record conn_info : dict) (brief : str) :
  read_inventory tool (py "inventory.csv") = Return inventory ->
  get_device_data tool inventory (py "R1") = Return (Some record) ->
  record <> ∅ ->
  fst (Task4.get_conn_info record) = Return conn_info ->
  Task4.get_interface_brief world conn_info
    (t ++ [EvPrint (py "Loaded " ++ str_of_nat (length inventory)
                    ++ py " devices from inventory")])
  = (Return brief, t1) ->
  Task4.main world tool t
  = (Return tt,
     t1 ++ [ EvPrint (py "Raw Interface Brief Output:");
             EvPrint brief;
             EvPrint [];
             EvPrint (py "Formatted Interface Status:") ]
        ++ map EvPrint (omap status_of (drop 1 (splitlines brief)))).
Proof.
  intros Hr Hg Hne Hi Hb.
  unfold Task4.main, try_except, bind, ask, reading, print.
  rewrite Hr; cbv beta iota. rewrite Hg; cbv beta iota.
  unfold true_dict. destruct (decide (record = ∅)) as [E|_];
    [now destruct Hne|].
  rewrite Hi; cbv beta iota. rewrite Hb; cbv beta iota.
  rewrite (for_each_prints status_of).
  - rewrite <- !app_assoc. reflexivity.
  - intros line t'. unfold status_of. cbv zeta.
    destruct (5 <=? length (split_whitespace line))%nat;
      [reflexivity | unfold ret; now rewrite app_nil_r].
Qed.

(** X11: When [get_interface_brief] returns a text of one line, as its
    connection-failed text is, [main] prints it as the raw output and prints
    no status line: the first line of the text counts as the heading of the
    table and is never formatted. *)
Theorem main_without_table
    (world : netmiko) (tool : inventory_tool) (t t1 : trace)
    (inventory : list dict) (record conn_info : dict) (brief : str) :
  read_inventory tool (py "inventory.csv") = Return inventory ->
  get_device_data tool inventory (py "R1") = Return (Some record) ->
  record <> ∅ ->
  fst (Task4.get_conn_info record) = Return conn_info ->
  Task4.get_interface_brief world conn_info
    (t ++ [EvPrint (py "Loaded " ++ str_of_nat (length inventory)
                    ++ py " devices from inventory")])
  = (Return brief, t1) ->
  one_line brief = true ->
  Task4.main world tool t
  = (Return tt,
     t1 ++ [ EvPrint (py "Raw Interface Brief Output:");
             EvPrint brief;
             EvPrint [];
             EvPrint (py "Formatted Interface Status:") ]).
Proof.
  intros Hr Hg Hne Hi Hb Hone.
  rewrite (main_after_brief world tool t t1 inventory record conn_info brief
             Hr Hg Hne Hi Hb).
  unfold splitlines. rewrite (splitlines_from_last [] brief Hone).
  simpl rev. simpl app.
  destruct brief; reflexivity.
Qed.

(** The theorem at the sample device that cannot be reached. *)
Lemma main_without_table_example :
  Task4.main Examples.unreachable Examples.inventory_with_R1 []
  = (Return tt,
     [ EvPrint (py "Loaded 1 devices from inventory");
       EvConnectHandler Examples.R1_device
         (Raise (Raised true (py "connection timed out")));
       EvPrint (py "Error connecting to device 192.0.2.1: connection timed out") ]
     ++ [ EvPrint (py "Raw Interface Brief Output:");
          EvPrint (py "Connection failed; cannot retrieve interface brief.");
          EvPrint [];
          EvPrint (py "Formatted Interface Status:") ]).
Proof.
  exact (main_without_table
           Examples.unreachable Examples.inventory_with_R1 [] _
           [Examples.R1] Examples.R1 Examples.R1_device
           (py "Connection failed; cannot retrieve interface brief.")
           eq_refl eq_refl R1_not_empty eq_refl eq_refl eq_refl).
Defined.

(** X12: When the device answers with a table (a heading line, then rows of
    fields separated by blanks), [main] prints
    [Interface <1st>: IP: <2nd>, Status: <5th>] for every row of at least
    five fields, in the order of the table, and nothing for a shorter
    row. *)
Theorem main_formats_table
    (world : netmiko) (tool : inventory_tool) (t t1 : trace)
    (inventory : list dict) (record conn_info : dict)
    (header : str) (table : list (list str)) :
  read_inventory tool (py "inventory.csv") = Return inventory ->
  get_device_data tool inventory (py "R1") = Return (Some record) ->
  record <> ∅ ->
  fst (Task4.get_conn_info record) = Return conn_info ->
  Task4.get_interface_brief world conn_info
    (t ++ [EvPrint (py "Loaded " ++ str_of_nat (length inventory)
                    ++ py " devices from inventory")])
  = (Return (text_of (header :: map row table)), t1) ->
  one_line header = true ->
  forallb (forallb field) table = true ->
  Task4.main world tool t
  = (Return tt,
     t1 ++ [ EvPrint (py "Raw Interface Brief Output:");
             EvPrint (text_of (header :: map row table));
             EvPrint [];
             EvPrint (py "Formatted Interface Status:") ]
        ++ map EvPrint
             (map status_line
                (List.filter (fun fields => (5 <=? length fields)%nat)
                             table))).
Proof.
  intros Hr Hg Hne Hi Hb Hh Ht.
  rewrite (main_after_brief world tool t t1 inventory record conn_info _
             Hr Hg Hne Hi Hb).
  do 3 f_equal.
  rewrite (omap_rest_of_text status_of header (map row table) eq_refl Hh).
  - clear Hb. induction table as [|fields table IH]; [reflexivity|].
    simpl in Ht. apply andb_true_iff in Ht as [Hf Ht].
    cbn [map List.filter]. rewrite omap_cons_eq.
    unfold status_of at 1. cbv zeta.
    rewrite (split_whitespace_row fields Hf).
    destruct (5 <=? length fields)%nat; cbn [map]; now rewrite (IH Ht).
  - clear Hb. induction table as [|fields table IH]; [reflexivity|].
    simpl in Ht. apply andb_true_iff in Ht as [Hf Ht].
    cbn [map forallb]. now rewrite (row_one_line fields Hf), (IH Ht).
Qed.

(** The theorem at the sample router and its table of two interfaces. *)
Lemma main_formats_table_example :
  Task4.main Examples.router Examples.inventory_with_R1 []
  = (Return tt,
     [ EvPrint (py "Loaded 1 devices from inventory");
       EvConnectHandler Examples.R1_device (Return 1);
       EvEnable 1 (Return tt);
       EvSendCommand 1 (py "show ip interface brief")
         (Return (text_of (Examples.brief_header
                           :: map row Examples.brief_table)));
       EvDisconnect 1 (Return tt) ]
     ++ [ EvPrint (py "Raw Interface Brief Output:");
          EvPrint (text_of (Examples.brief_header
                            :: map row Examples.brief_table));
          EvPrint [];
          EvPrint (py "Formatted Interface Status:") ]
     ++ map EvPrint
          (map status_line
             (List.filter (fun fields => (5 <=? length fields)%nat)
                          Examples.brief_table))).
Proof.
  exact (main_formats_table
           Examples.router Examples.inventory_with_R1 [] _
           [Examples.R1] Examples.R1 Examples.R1_device
           Examples.brief_header Examples.brief_table
           eq_refl eq_refl R1_not_empty eq_refl eq_refl eq_refl eq_refl).
Defined.

End MainFacts.

(** ** What a run of an entry point can do to the device *)
Section EntryPointFacts.
Import Python Netmiko InventoryTool Spec.

Lemma calls_app es es' : calls (es ++ es') = calls es ++ calls es'.
Proof. apply List.filter_app. Qed.

(** A loop whose body only prints calls nothing. *)
Lemma for_each_no_calls {A : Type} (body : A -> M trace unit) :
  (forall x t, exists es, body x t = (Return tt, t ++ es) /\ calls es = []) ->
  forall xs t,
    exists es, for_each xs body t = (Return tt, t ++ es) /\ calls es = [].
Proof.
  intros Hb. induction xs as [|x xs IH]; intros t.
  - exists []. simpl. unfold ret. now rewrite app_nil_r.
  - cbn [for_each]. unfold bind.
    destruct (Hb x t) as (es1 & -> & H1).
    destruct (IH (t ++ es1)) as (es2 & -> & H2).
    exists (es1 ++ es2). rewrite app_assoc. split; [reflexivity|].
    now rewrite calls_app, H1, H2.
Qed.

(** X10: Whatever the inventory and the device answer, the calls that one run of
    [cli_main] makes are none at all, or one opening that fails, or an
    opening and an elevation that fails, or an opening, an elevation and one
    send, followed or not by one disconnect: never a second session, never
    a second send. *)
Theorem cli_main_lifecycle
    (world : netmiko) (tool : inventory_tool)
    (device_name : str) (command config : option str) (t : trace) :
  exists es : trace,
    snd (Task4.cli_main world tool device_name command config t) = t ++ es
    /\ cli_lifecycle (map step_of (calls es)) = true.
Proof.
  unfold Task4.cli_main, Task4.send_config, Task4.send_command,
    Task4.connect_device, try_except, try_finally, bind, ask, reading,
    echo, print, call, ret.
  repeat (cbv beta iota;
          match goal with
          | |- context [match ?x with _ => _ end] =>
              lazymatch x with
              | context [match _ with _ => _ end] => fail
              | _ => destruct x eqn:?
              end
          end);
    cbv beta iota; cbn [snd]; eexists;
    (split; [first [ rewrite <- ?app_assoc; reflexivity
                   | symmetry; apply app_nil_r ] | reflexivity]).
Qed.

(** X13: Whatever the inventory and the device answer, the calls that one run of
    [main] makes are none at all, or one opening that fails, or an opening
    and an elevation that fails, or an opening, an elevation, one send and
    one disconnect: a session that was used is always closed. *)
Theorem main_lifecycle
    (world : netmiko) (tool : inventory_tool) (t : trace) :
  exists es : trace,
    snd (Task4.main world tool t) = t ++ es
    /\ closed_lifecycle (map step_of (calls es)) = true.
Proof.
  unfold Task4.main, Task4.get_interface_brief, Task4.connect_device,
    try_except, try_finally, bind, ask, reading, print, call, ret.
  repeat (cbv beta iota;
          match goal with
          | |- context [match ?x with _ => _ end] =>
              lazymatch x with
              | context [match _ with _ => _ end] => fail
              | _ => destruct x eqn:?
              end
          end);
    cbv beta iota;
    try match goal with
        | |- context [for_each ?xs ?body ?s] =>
            let Hb := fresh "Hbody" in
            let H := fresh "Hloop" in
            assert (forall x t', exists es,
                      body x t' = (Return tt, t' ++ es) /\ calls es = [])
              as Hb
              by (intros x t'; cbv beta;
                  destruct (5 <=? _)%nat;
                  [ eexists; split; reflexivity
                  | exists []; split;
                    [now rewrite app_nil_r | reflexivity] ]);
            destruct (for_each_no_calls body Hb xs s) as (? & -> & H)
        end;
    cbv beta iota; cbn [snd]; eexists;
    (split; [first [ rewrite <- ?app_assoc; reflexivity
                   | symmetry; apply app_nil_r ]
            | repeat rewrite calls_app;
              repeat match goal with H : calls _ = [] |- _ => rewrite H end;
              reflexivity ]).
Qed.

(** X9: With a command and a device that cannot be reached, [cli_main] prints
    the report of [connect_device], which names the management address of
    the record and the cause, and then its own
    [Failed to connect to <name>]; nothing is sent. *)
Theorem cli_main_reports_unreachable
    (world : netmiko) (tool : inventory_tool)
    (device_name text : str) (command config : option str) (t : trace)
    (inventory : list dict) (record : dict) (address user password : str)
    (e : exception) :
  read_inventory tool (py "inventory.csv") = Return inventory ->
  get_device_data tool inventory device_name = Return (Some record) ->
  record !! py "Management IP" = Some address ->
  record !! py "Username" = Some user ->
  record !! py "Password" = Some password ->
  true_str command = Some text ->
  ConnectHandler world t
    (dict_of [ (py "device_type", py "cisco_ios");
               (py "host", address);
               (py "username", user);
               (py "password", password);
               (py "secret", password) ]) = Raise e ->
  isinstance_Exception e = true ->
  Task4.cli_main world tool device_name command config t
  = (Return tt,
     t ++ [ EvConnectHandler
              (dict_of [ (py "device_type", py "cisco_ios");
                         (py "host", address);
                         (py "username", user);
                         (py "password", password);
                         (py "secret", password) ])
              (Raise e);
            EvPrint (py "Error connecting to device " ++ address
                     ++ py ": " ++ str_of_exception e);
            EvPrint (py "Failed to connect to " ++ device_name) ]).
Proof.
  intros Hr Hg Ha Hu Hp Hc Ho He.
  assert (record <> ∅) as Hne.
  { intros ->. rewrite lookup_empty in Ha. discriminate Ha. }
  assert (fst (Task4.get_conn_info record)
          = Return (dict_of [ (py "device_type", py "cisco_ios");
                              (py "host", address);
                              (py "username", user);
                              (py "password", password);
                              (py "secret", password) ])) as Hi.
  { unfold Task4.get_conn_info, bind, getitem, ret.
    rewrite Ha; cbv beta iota. rewrite Hu; cbv beta iota.
    rewrite Hp; cbv beta iota. rewrite Hp; cbv beta iota. reflexivity. }
  pose proof (connect_device_open_raises world _ t e Ho) as Hd.
  rewrite He in Hd.
  assert (dict_of [ (py "device_type", py "cisco_ios");
                    (py "host", address);
                    (py "username", user);
                    (py "password", password);
                    (py "secret", password) ] !! py "host"
          = Some address) as Hhost.
  { unfold dict_of. cbn [list_to_map foldr fst snd uncurry].
    rewrite lookup_insert_ne by (vm_compute; discriminate).
    apply lookup_insert_eq. }
  rewrite Hhost in Hd. cbn [format_optional] in Hd.
  unfold Task4.cli_main, try_except, bind at 1 2 3, ask, reading.
  rewrite Hr; cbv beta iota. rewrite Hg; cbv beta iota.
  unfold true_dict. destruct (decide (record = ∅)) as [E|_];
    [now destruct Hne|].
  rewrite Hi, Hc. unfold bind, echo, print. rewrite Hd.
  cbn [from_option id]. rewrite <- app_assoc. reflexivity.
Qed.

(** The theorem at the sample device that cannot be reached. *)
Lemma cli_main_reports_unreachable_example :
  Task4.cli_main Examples.unreachable Examples.inventory_with_R1
    (py "R1") (Some (py "show version")) None []
  = (Return tt,
     [] ++ [ EvConnectHandler
               (dict_of [ (py "device_type", py "cisco_ios");
                          (py "host", py "192.0.2.1");
                          (py "username", py "admin");
                          (py "password", py "cisco");
                          (py "secret", py "cisco") ])
               (Raise (Raised true (py "connection timed out")));
             EvPrint (py "Error connecting to device " ++ py "192.0.2.1"
                      ++ py ": "
                      ++ str_of_exception
                           (Raised true (py "connection timed out")));
             EvPrint (py "Failed to connect to " ++ py "R1") ]).
Proof.
  exact (cli_main_reports_unreachable
           Examples.unreachable Examples.inventory_with_R1
           (py "R1") (py "show version") (Some (py "show version")) None []
           [Examples.R1] Examples.R1
           (py "192.0.2.1") (py "admin") (py "cisco")
           (Raised true (py "connection timed out"))
           eq_refl eq_refl eq_refl eq_refl eq_refl eq_refl eq_refl eq_refl).
Defined.




End EntryPointFacts.
